(** * Storage object client of go-oracle-terraform: header marshalling,
      identifier resolution and the Create / Get / Delete wrappers.

    Shallow embedding of [storage/object.go].  Go strings are byte strings
    ([string]), [map[string]string] is [gmap string string], [http.Header]
    is [gmap string (list string)], Go's [int] is a 64-bit integer carried
    in [Z], and a pair [(value, error)] is a [result]. *)

From Stdlib Require Import ZArith String Ascii DecimalString DecimalPos.
From stdpp Require Import base option list strings gmap fin_maps.

(** ** Errors and results *)

(** The two sentinel errors of package [strconv]. *)
Inductive strconv_err := ErrSyntax | ErrRange.

(** The error values the client can return: one built by [fmt.Errorf] in
    [object.go], a [*strconv.NumError] coming out of [strconv.Atoi], or an
    error handed back by one of the resource calls of [StorageClient]. *)
Inductive error :=
| Errorf (msg : string)
| NumError (num : string) (err : strconv_err)
| TransportError (msg : string).

Inductive result (A : Type) :=
| Ok (a : A)
| Err (e : error).
Arguments Ok {A} a.
Arguments Err {A} e.

(** The taxonomy of the specification, read off the origin of the error. *)
Definition ValidationError (e : error) : Prop :=
  match e with Errorf _ => True | _ => False end.
Definition FormatError (e : error) : Prop :=
  match e with NumError _ _ => True | _ => False end.

(** ** The Go library functions [object.go] calls *)

Module Go.

(** [strings.HasPrefix(s, prefix)]. *)
Fixpoint HasPrefix (s prefix : string) {struct prefix} : bool :=
  match prefix, s with
  | EmptyString, _ => true
  | String _ _, EmptyString => false
  | String p prefix', String c s' =>
      if Ascii.eqb c p then HasPrefix s' prefix' else false
  end.

(** [s[n:]] for [n <= len(s)]. *)
Fixpoint slice_from (n : nat) (s : string) : string :=
  match n, s with
  | O, _ => s
  | S _, EmptyString => EmptyString
  | S n', String _ s' => slice_from n' s'
  end.

(** [strings.TrimPrefix(s, prefix)]: [s] without the leading [prefix],
    and [s] itself when it does not start with [prefix]. *)
Definition TrimPrefix (s prefix : string) : string :=
  if HasPrefix s prefix then slice_from (String.length prefix) s else s.

(** [strings.Split(s, sep)] for a separator of one byte, which is the
    only way [object.go] calls it ([strings.Split(input.ID, "/")]). *)
Fixpoint Split (s : string) (sep : ascii) : list string :=
  match s with
  | EmptyString => [EmptyString]
  | String c s' =>
      if Ascii.eqb c sep then EmptyString :: Split s' sep
      else match Split s' sep with
           | [] => [String c EmptyString]
           | w :: ws => String c w :: ws
           end
  end.

(** [strings.Count(s, sep)] for a separator of one byte. *)
Fixpoint Count (s : string) (sep : ascii) : nat :=
  match s with
  | EmptyString => O
  | String c s' => (if Ascii.eqb c sep then 1 else 0) + Count s' sep
  end.

(** [strings.Join(elems, sep)]. *)
Definition Join (elems : list string) (sep : string) : string :=
  String.concat sep elems.

(** [fmt.Sprintf("%d", n)]. *)
Definition Sprintf_d (n : Z) : string :=
  NilZero.string_of_int (Z.to_int n).

(** [fmt.Sprintf("%t", b)]. *)
Definition Sprintf_t (b : bool) : string :=
  if b then "true" else "false".

(** [fmt.Sprintf("%s/%s", a, b)]. *)
Definition Sprintf_s_slash_s (a b : string) : string :=
  a +:+ "/" +:+ b.

Definition maxUint64 : Z := 2 ^ 64 - 1.
Definition maxInt : Z := 2 ^ 63 - 1.
Definition minInt : Z := - 2 ^ 63.

Definition digit (c : ascii) : option Z :=
  let n := Z.of_N (N_of_ascii c) in
  if ((48 <=? n) && (n <=? 57))%Z then Some (n - 48)%Z else None.

(** The digit loop of [strconv.ParseUint(s, 10, 64)]: a byte that is no
    digit is a syntax error, a value above [maxUint64] a range error,
    whichever comes first from the left. *)
Fixpoint ParseUint_loop (s : string) (n : Z) : strconv_err + Z :=
  match s with
  | EmptyString => inr n
  | String d s' =>
      match digit d with
      | None => inl ErrSyntax
      | Some v =>
          let n1 := (n * 10 + v)%Z in
          if (maxUint64 <? n1)%Z then inl ErrRange else ParseUint_loop s' n1
      end
  end.

(** [strconv.Atoi(s)] with a 64-bit [int]: an optional sign, then at
    least one decimal digit, and the value within the range of [int]. *)
Definition Atoi (s : string) : result Z :=
  let '(neg, body) :=
    match s with
    | String "+" r => (false, r)
    | String "-" r => (true, r)
    | _ => (false, s)
    end in
  match body with
  | EmptyString => Err (NumError s ErrSyntax)
  | _ =>
      match ParseUint_loop body 0 with
      | inl e => Err (NumError s e)
      | inr un =>
          if neg then
            if (2 ^ 63 <? un)%Z then Err (NumError s ErrRange) else Ok (- un)%Z
          else
            if (2 ^ 63 <=? un)%Z then Err (NumError s ErrRange) else Ok un
      end
  end.

(** The token bytes of a header field name ([validHeaderFieldByte]). *)
Definition validHeaderFieldByte (c : ascii) : bool :=
  let n := N_of_ascii c in
  ((48 <=? n) && (n <=? 57) || (65 <=? n) && (n <=? 90)
   || (97 <=? n) && (n <=? 122))%N
  || existsb (Ascii.eqb c) (list_ascii_of_string "!#$%&'*+-.^_`|~").

Definition isLower (c : ascii) : bool :=
  let n := N_of_ascii c in ((97 <=? n) && (n <=? 122))%N.
Definition isUpper (c : ascii) : bool :=
  let n := N_of_ascii c in ((65 <=? n) && (n <=? 90))%N.

(** The rewriting loop of [canonicalMIMEHeaderKey]: upper case for the
    first letter and for a letter after a dash, lower case elsewhere. *)
Fixpoint canonicalize (upper : bool) (s : string) : string :=
  match s with
  | EmptyString => EmptyString
  | String c s' =>
      let c' :=
        if upper && isLower c then ascii_of_N (N_of_ascii c - 32)
        else if negb upper && isUpper c then ascii_of_N (N_of_ascii c + 32)
        else c in
      String c' (canonicalize (Ascii.eqb c' "-") s')
  end.

(** [textproto.CanonicalMIMEHeaderKey(s)]: a key with a byte that is no
    token byte is returned unchanged. *)
Definition CanonicalMIMEHeaderKey (s : string) : string :=
  if forallb validHeaderFieldByte (list_ascii_of_string s)
  then canonicalize true s else s.

(** [http.Header.Get(key)]: the first value stored under the canonical
    form of [key], and the empty string when there is none. *)
Definition Header_Get (h : gmap string (list string)) (key : string) : string :=
  match h !! CanonicalMIMEHeaderKey key with
  | Some (v :: _) => v
  | _ => EmptyString
  end.

(** [for k, v := range m { b = body(k, v, b) }] when the entries of [m]
    are visited in the given order. *)
Fixpoint range {A B : Type} (body : string → A → B → B)
    (order : list (string * A)) (b : B) : B :=
  match order with
  | [] => b
  | (k, v) :: rest => range body rest (body k v b)
  end.

End Go.

(** ** Header constants *)

Definition h_AcceptRanges : string := "Accept-Ranges".
Definition h_ContentDisposition : string := "Content-Disposition".
Definition h_ContentEncoding : string := "Content-Encoding".
Definition h_ContentLength : string := "Content-Length".
Definition h_ContentType : string := "Content-Type".
Definition h_CopyFrom : string := "X-Copy-From".
Definition h_Date : string := "Date".
Definition h_DeleteAt : string := "X-Delete-At".
Definition h_ETag : string := "ETag".
Definition h_LastModified : string := "Last-Modified".
Definition h_Newest : string := "X-Newest".
Definition h_ObjectManifest : string := "X-Object-Manifest".
Definition h_Range : string := "Range".
Definition h_Timestamp : string := "X-Timestamp".
Definition h_TransactionID : string := "X-Trans-Id".
Definition h_TransferEncoding : string := "Transfer-Encoding".
Definition h_MetadataPrefix : string := "X-Object-Meta-".

(** ** Data model *)

(** [*http.Response], of which the client reads the header only. *)
Record Response := { Header : gmap string (list string) }.

(** The body of a write request ([io.ReadSeeker]), as the bytes it holds. *)
Definition ReadSeeker : Type := list Byte.byte.

Module ObjectInfo.
Record t := mk {
  ID : string;
  Name : string;
  AcceptRanges : string;
  Container : string;
  ContentDisposition : string;
  ContentEncoding : string;
  ContentLength : Z;
  ContentType : string;
  Date : string;
  Etag : string;
  LastModified : string;
  DeleteAt : Z;
  ObjectManifest : string;
  ObjectMetadata : gmap string string;
  Timestamp : string;
  TransactionID : string
}.

(** The zero value of the struct ([var object ObjectInfo]). *)
Definition zero : t :=
  mk "" "" "" "" "" "" 0 "" "" "" "" 0 "" ∅ "" "".
End ObjectInfo.

Module CreateObjectInput.
Record t := mk {
  Name : string;
  Body : option ReadSeeker;
  Container : string;
  ContentDisposition : string;
  ContentEncoding : string;
  ContentType : string;
  CopyFrom : string;
  DeleteAt : Z;
  ObjectMetadata : gmap string string;
  ETag : string;
  TransferEncoding : string
}.
End CreateObjectInput.

Module GetObjectInput.
Record t := mk {
  ID : string;
  Name : string;
  Container : string;
  Range : string;
  Newest : bool
}.
End GetObjectInput.

Module DeleteObjectInput.
Record t := mk {
  ID : string;
  Name : string;
  Container : string
}.
End DeleteObjectInput.

(** ** Header marshalling (request direction) *)

(** The body of the loop over [input.ObjectMetadata] in [CreateObject]:
    [headers[fmt.Sprintf("%s%s", h_MetadataPrefix, name)] = fmt.Sprintf("%s", value)]. *)
Definition add_metadata_header (name value : string)
    (headers : gmap string string) : gmap string string :=
  <[h_MetadataPrefix +:+ name := value]> headers.

(** The request headers [CreateObject] has built from the scalar fields of
    its input when it reaches the loop over the metadata, statement by
    statement. *)
Definition scalar_headers (input : CreateObjectInput.t) : gmap string string :=
  let headers : gmap string string := ∅ in
  let headers :=
    if bool_decide (CreateObjectInput.ContentDisposition input ≠ "")
    then <[h_ContentDisposition := CreateObjectInput.ContentDisposition input]> headers
    else headers in
  let headers :=
    if bool_decide (CreateObjectInput.ContentEncoding input ≠ "")
    then <[h_ContentEncoding := CreateObjectInput.ContentEncoding input]> headers
    else headers in
  let headers :=
    if bool_decide (CreateObjectInput.ContentType input ≠ "")
    then <[h_ContentType := CreateObjectInput.ContentType input]> headers
    else headers in
  let headers :=
    if bool_decide (CreateObjectInput.ETag input ≠ "")
    then <[h_ETag := CreateObjectInput.ETag input]> headers
    else headers in
  let headers :=
    if bool_decide (CreateObjectInput.TransferEncoding input ≠ "")
    then <[h_TransferEncoding := CreateObjectInput.TransferEncoding input]> headers
    else headers in
  let headers :=
    if bool_decide (CreateObjectInput.CopyFrom input ≠ "")
    then <[h_CopyFrom := CreateObjectInput.CopyFrom input]> headers
    else headers in
  if bool_decide (CreateObjectInput.DeleteAt input ≠ 0%Z)
  then <[h_DeleteAt := Go.Sprintf_d (CreateObjectInput.DeleteAt input)]> headers
  else headers.

(** The request headers [CreateObject] hands to [createResourceBody].  Go
    leaves the order in which [range] visits a map open; [map_fold] visits
    in one fixed order, and [add_metadata_header_any_order] and
    [success_metadata_any_order] below show that the two loops over maps
    build the same map in every other order. *)
Definition CreateObject_headers (input : CreateObjectInput.t) : gmap string string :=
  let headers := scalar_headers input in
  if bool_decide (0 < size (CreateObjectInput.ObjectMetadata input))
  then map_fold add_metadata_header headers (CreateObjectInput.ObjectMetadata input)
  else headers.

(** ** Header unmarshalling (response direction) *)

(** The body of the loop over [resp.Header] in [success]. *)
Definition add_metadata_entry (header : string) (value : list string)
    (metadata : gmap string string) : gmap string string :=
  if Go.HasPrefix header h_MetadataPrefix
  then <[Go.TrimPrefix header h_MetadataPrefix := Go.Join value " "]> metadata
  else metadata.

(** The metadata map [success] stores in [object.ObjectMetadata]. *)
Definition success_metadata (hdr : gmap string (list string)) : gmap string string :=
  map_fold add_metadata_entry ∅ hdr.

(** One of the two numeric headers of [success]: the field keeps its value
    when the header reads as the empty string, and takes the parsed one
    otherwise. *)
Definition numeric_header (hdr : gmap string (list string)) (key : string)
    (current : Z) : result Z :=
  let v := Go.Header_Get hdr key in
  if bool_decide (v ≠ "") then Go.Atoi v else Ok current.

(** [success]: the descriptor filled from the response headers.  An error
    of [strconv.Atoi] returns [nil, err]; the fields already written to
    [object] are not returned. *)
Definition success (resp : Response) (object : ObjectInfo.t) : result ObjectInfo.t :=
  let hdr := Header resp in
  match numeric_header hdr h_ContentLength (ObjectInfo.ContentLength object) with
  | Err e => Err e
  | Ok contentLength =>
      match numeric_header hdr h_DeleteAt (ObjectInfo.DeleteAt object) with
      | Err e => Err e
      | Ok deleteAt =>
          Ok {| ObjectInfo.ID := ObjectInfo.ID object;
                ObjectInfo.Name := ObjectInfo.Name object;
                ObjectInfo.AcceptRanges := Go.Header_Get hdr h_AcceptRanges;
                ObjectInfo.Container := ObjectInfo.Container object;
                ObjectInfo.ContentDisposition := Go.Header_Get hdr h_ContentDisposition;
                ObjectInfo.ContentEncoding := Go.Header_Get hdr h_ContentEncoding;
                ObjectInfo.ContentLength := contentLength;
                ObjectInfo.ContentType := Go.Header_Get hdr h_ContentType;
                ObjectInfo.Date := Go.Header_Get hdr h_Date;
                ObjectInfo.Etag := Go.Header_Get hdr h_ETag;
                ObjectInfo.LastModified := Go.Header_Get hdr h_LastModified;
                ObjectInfo.DeleteAt := deleteAt;
                ObjectInfo.ObjectManifest := Go.Header_Get hdr h_ObjectManifest;
                ObjectInfo.ObjectMetadata := success_metadata hdr;
                ObjectInfo.Timestamp := Go.Header_Get hdr h_Timestamp;
                ObjectInfo.TransactionID := Go.Header_Get hdr h_TransactionID |}
      end
  end.

(** ** The calls a client makes on its [StorageClient] *)

(** A resource call of [StorageClient] with the arguments it was given. *)
Inductive Call :=
| Call_createResourceBody (name : string) (headers : gmap string string)
    (body : option ReadSeeker)
| Call_getResourceHeaders (name : string) (headers : gmap string string)
| Call_deleteResource (name : string).

(** [object.ID], [object.Container] and [object.Name] assigned, the other
    fields kept. *)
Definition set_identity (id container name : string) (object : ObjectInfo.t) : ObjectInfo.t :=
  {| ObjectInfo.ID := id;
     ObjectInfo.Name := name;
     ObjectInfo.AcceptRanges := ObjectInfo.AcceptRanges object;
     ObjectInfo.Container := container;
     ObjectInfo.ContentDisposition := ObjectInfo.ContentDisposition object;
     ObjectInfo.ContentEncoding := ObjectInfo.ContentEncoding object;
     ObjectInfo.ContentLength := ObjectInfo.ContentLength object;
     ObjectInfo.ContentType := ObjectInfo.ContentType object;
     ObjectInfo.Date := ObjectInfo.Date object;
     ObjectInfo.Etag := ObjectInfo.Etag object;
     ObjectInfo.LastModified := ObjectInfo.LastModified object;
     ObjectInfo.DeleteAt := ObjectInfo.DeleteAt object;
     ObjectInfo.ObjectManifest := ObjectInfo.ObjectManifest object;
     ObjectInfo.ObjectMetadata := ObjectInfo.ObjectMetadata object;
     ObjectInfo.Timestamp := ObjectInfo.Timestamp object;
     ObjectInfo.TransactionID := ObjectInfo.TransactionID object |}.

(** The block of [GetObject] under the comment "Set Name, container, and
    ID": an explicit ID is split at the slashes and must give two parts,
    and without one the ID is composed from the container and the name. *)
Definition GetObject_identity (input : GetObjectInput.t) (object : ObjectInfo.t)
    : result ObjectInfo.t :=
  if bool_decide (GetObjectInput.ID input ≠ "") then
    match Go.Split (GetObjectInput.ID input) "/" with
    | [part0; part1] => Ok (set_identity (GetObjectInput.ID input) part0 part1 object)
    | _ => Err (Errorf ("Unknown ID specified: " +:+ GetObjectInput.ID input))
    end
  else
    Ok (set_identity
          (Go.Sprintf_s_slash_s (GetObjectInput.Container input) (GetObjectInput.Name input))
          (GetObjectInput.Container input) (GetObjectInput.Name input) object).

Declare Scope client_scope.
Delimit Scope client_scope with client.

Section ObjectClient.

(** What lies behind the embedded [StorageClient], whose methods are not
    part of [object.go]: the state of the storage service and of the
    connection to it, the name qualification, and the three resource
    calls.  A resource call reports an error or succeeds;
    [getResourceHeaders] is also handed [&object] and may write to it. *)
Variable World : Type.
Variable getQualifiedName : string → string.
Variable createResourceBody :
  string → gmap string string → option ReadSeeker → World → option string * World.
Variable getResourceHeaders :
  string → ObjectInfo.t → gmap string string → World
  → (string + Response * ObjectInfo.t) * World.
Variable deleteResource : string → World → option string * World.

(** The state a method of the client runs in: the world behind the
    [StorageClient] and the resource calls made so far, oldest first. *)
Record ClientState := { world : World; calls : list Call }.

(** A method of the client: a result and the state it leaves. *)
Definition M (A : Type) : Type := ClientState → result A * ClientState.

Definition ret {A} (a : A) : M A := λ st, (Ok a, st).
Definition fail {A} (e : error) : M A := λ st, (Err e, st).
Definition lift {A} (r : result A) : M A := λ st, (r, st).
Definition bind {A B} (m : M A) (k : A → M B) : M B :=
  λ st, match m st with
        | (Ok a, st') => k a st'
        | (Err e, st') => (Err e, st')
        end.

Notation "'let*' x := m 'in' k" := (bind m (λ x, k))
  (at level 10, x pattern, m at level 100, k at level 200) : client_scope.
Local Open Scope client_scope.

Definition log (c : Call) (st : ClientState) : list Call := calls st ++ [c].

Definition call_createResourceBody (name : string) (headers : gmap string string)
    (body : option ReadSeeker) : M unit :=
  λ st, let '(r, w) := createResourceBody name headers body (world st) in
        (match r with None => Ok tt | Some e => Err (TransportError e) end,
         {| world := w; calls := log (Call_createResourceBody name headers body) st |}).

Definition call_getResourceHeaders (name : string) (object : ObjectInfo.t)
    (headers : gmap string string) : M (Response * ObjectInfo.t) :=
  λ st, let '(r, w) := getResourceHeaders name object headers (world st) in
        (match r with inl e => Err (TransportError e) | inr ro => Ok ro end,
         {| world := w; calls := log (Call_getResourceHeaders name headers) st |}).

Definition call_deleteResource (name : string) : M unit :=
  λ st, let '(r, w) := deleteResource name (world st) in
        (match r with None => Ok tt | Some e => Err (TransportError e) end,
         {| world := w; calls := log (Call_deleteResource name) st |}).

Definition getIdentifier (id container name : string) : result string :=
  if bool_decide (id ≠ "") then Ok (getQualifiedName id)
  else if bool_decide (container = "") && bool_decide (name = "")
  then Err (Errorf "Either ID or Name and Container must be set during DELETE")
  else Ok (getQualifiedName (Go.Sprintf_s_slash_s container name)).

Definition GetObject (input : GetObjectInput.t) : M ObjectInfo.t :=
  let object := ObjectInfo.zero in
  let headers : gmap string string := ∅ in
  let* name := lift (getIdentifier (GetObjectInput.ID input)
                       (GetObjectInput.Container input) (GetObjectInput.Name input)) in
  let headers := <[h_Range := GetObjectInput.Range input]> headers in
  let headers := <[h_Newest := Go.Sprintf_t (GetObjectInput.Newest input)]> headers in
  let* (resp, object) := call_getResourceHeaders name object headers in
  let* object := lift (GetObject_identity input object) in
  lift (success resp object).

Definition CreateObject (input : CreateObjectInput.t) : M ObjectInfo.t :=
  let name := getQualifiedName
                (Go.Sprintf_s_slash_s (CreateObjectInput.Container input)
                   (CreateObjectInput.Name input)) in
  let headers := CreateObject_headers input in
  if bool_decide (CreateObjectInput.Body input = None)
     && bool_decide (CreateObjectInput.CopyFrom input = "")
  then fail (Errorf "Body cannot be nil")
  else
    let* _ := call_createResourceBody name headers (CreateObjectInput.Body input) in
    let getInput :=
      {| GetObjectInput.ID := "";
         GetObjectInput.Name := CreateObjectInput.Name input;
         GetObjectInput.Container := CreateObjectInput.Container input;
         GetObjectInput.Range := "";
         GetObjectInput.Newest := false |} in
    GetObject getInput.

Definition DeleteObject (input : DeleteObjectInput.t) : M unit :=
  let* name := lift (getIdentifier (DeleteObjectInput.ID input)
                       (DeleteObjectInput.Container input)
                       (DeleteObjectInput.Name input)) in
  call_deleteResource (getQualifiedName name).

End ObjectClient.

Arguments world {World} _.
Arguments calls {World} _.

(** ** Sample collaborators

    Two name qualifications and an in-memory storage service, to run the
    client on concrete inputs. *)

Module Sample.

(** A qualification that leaves a name it has qualified alone. *)
Definition qualify_once (name : string) : string :=
  if Go.HasPrefix name "/Storage-acme/" then name else "/Storage-acme/" +:+ name.

(** A qualification that prefixes the account whatever the name is. *)
Definition qualify_always (name : string) : string :=
  "/Storage-acme/" +:+ name.

(** The service: the headers stored under each qualified name. *)
Definition Store : Type := gmap string (gmap string (list string)).

Definition put (name : string) (headers : gmap string string)
    (body : option ReadSeeker) (w : Store) : option string * Store :=
  (None, <[name := (λ v, [v]) <$> headers]> w).

Definition head (name : string) (object : ObjectInfo.t)
    (headers : gmap string string) (w : Store)
    : (string + Response * ObjectInfo.t) * Store :=
  match w !! name with
  | Some h => (inr ({| Header := h |}, object), w)
  | None => (inl "404 Not Found", w)
  end.

Definition remove (name : string) (w : Store) : option string * Store :=
  match w !! name with
  | Some _ => (None, delete name w)
  | None => (Some "404 Not Found", w)
  end.

Definition start : ClientState Store := {| world := ∅; calls := [] |}.

(** A service that holds an object under c1/f.txt and one under c1. *)
Definition stored : ClientState Store :=
  {| world := {[ "/Storage-acme/c1/f.txt" := {[ "Content-Type" := ["text/plain"] ]};
                 "/Storage-acme/c1" := {[ "Content-Type" := ["text/plain"] ]} ]};
     calls := [] |}.

Definition hello : ReadSeeker := [Byte.x68; Byte.x69].

(** Create(container="c1", name="f.txt", body, contentType="text/plain"). *)
Definition create_f_txt : CreateObjectInput.t :=
  {| CreateObjectInput.Name := "f.txt";
     CreateObjectInput.Body := Some hello;
     CreateObjectInput.Container := "c1";
     CreateObjectInput.ContentDisposition := "";
     CreateObjectInput.ContentEncoding := "";
     CreateObjectInput.ContentType := "text/plain";
     CreateObjectInput.CopyFrom := "";
     CreateObjectInput.DeleteAt := 0;
     CreateObjectInput.ObjectMetadata := ∅;
     CreateObjectInput.ETag := "";
     CreateObjectInput.TransferEncoding := "" |}.

(** An input that carries the metadata mapping color -> red and nothing else. *)
Definition create_color_red : CreateObjectInput.t :=
  {| CreateObjectInput.Name := "f.txt";
     CreateObjectInput.Body := Some hello;
     CreateObjectInput.Container := "c1";
     CreateObjectInput.ContentDisposition := "";
     CreateObjectInput.ContentEncoding := "";
     CreateObjectInput.ContentType := "";
     CreateObjectInput.CopyFrom := "";
     CreateObjectInput.DeleteAt := 0;
     CreateObjectInput.ObjectMetadata := {[ "color" := "red" ]};
     CreateObjectInput.ETag := "";
     CreateObjectInput.TransferEncoding := "" |}.

(** An input with neither a body nor a copy source. *)
Definition create_nothing : CreateObjectInput.t :=
  {| CreateObjectInput.Name := "f.txt";
     CreateObjectInput.Body := None;
     CreateObjectInput.Container := "c1";
     CreateObjectInput.ContentDisposition := "";
     CreateObjectInput.ContentEncoding := "";
     CreateObjectInput.ContentType := "text/plain";
     CreateObjectInput.CopyFrom := "";
     CreateObjectInput.DeleteAt := 0;
     CreateObjectInput.ObjectMetadata := ∅;
     CreateObjectInput.ETag := "";
     CreateObjectInput.TransferEncoding := "" |}.

End Sample.

(** ** Specification-side vocabulary *)

(** The response header set a service answers with when it stores the
    request headers as they are: one value per header. *)
Definition echo (headers : gmap string string) : gmap string (list string) :=
  (λ v, [v]) <$> headers.

(** An optional string field as a header: left out when empty. *)
Definition omit_if_empty (field : string) : option string :=
  if bool_decide (field = "") then None else Some field.

(** A string that reads as a decimal integer: an optional sign and then
    one decimal digit or more. *)
Definition all_digits (s : string) : bool :=
  forallb (λ c, bool_decide (is_Some (Go.digit c))) (list_ascii_of_string s).

Definition unsigned_part (s : string) : string :=
  match s with
  | String "+" r => r
  | String "-" r => r
  | _ => s
  end.

Definition decimal_integer (s : string) : bool :=
  negb (bool_decide (unsigned_part s = "")) && all_digits (unsigned_part s).

(** The deletion as the specification words it: the name handed to
    [deleteResource] is the identifier the resolution of section 4.1
    produced, qualified that once. *)
Definition Delete_hands_resolved_identifier {World : Type}
    (getQualifiedName : string → string)
    (deleteResource : string → World → option string * World)
    (input : DeleteObjectInput.t) (st : ClientState World) : Prop :=
  ∀ resolved : string,
    getIdentifier getQualifiedName (DeleteObjectInput.ID input)
      (DeleteObjectInput.Container input) (DeleteObjectInput.Name input)
    = Ok resolved →
    calls (DeleteObject World getQualifiedName deleteResource input st).2
    = calls st ++ [Call_deleteResource resolved].

(** The state after one more resource call. *)
Definition after {World : Type} (c : Call) (w : World) (st : ClientState World)
    : ClientState World :=
  {| world := w; calls := calls st ++ [c] |}.

(** The request headers of [GetObject]. *)
Definition GetObject_headers (input : GetObjectInput.t) : gmap string string :=
  <[h_Newest := Go.Sprintf_t (GetObjectInput.Newest input)]>
    (<[h_Range := GetObjectInput.Range input]> ∅).

(** The input [CreateObject] hands to [GetObject]. *)
Definition getInput (input : CreateObjectInput.t) : GetObjectInput.t :=
  {| GetObjectInput.ID := "";
     GetObjectInput.Name := CreateObjectInput.Name input;
     GetObjectInput.Container := CreateObjectInput.Container input;
     GetObjectInput.Range := "";
     GetObjectInput.Newest := false |}.

(** The number a run of decimal digits stands for when it follows the
    digits that gave [acc]. *)
Fixpoint uint_value (d : Decimal.uint) (acc : Z) : Z :=
  match d with
  | Decimal.Nil => acc
  | Decimal.D0 d' => uint_value d' (acc * 10 + 0)
  | Decimal.D1 d' => uint_value d' (acc * 10 + 1)
  | Decimal.D2 d' => uint_value d' (acc * 10 + 2)
  | Decimal.D3 d' => uint_value d' (acc * 10 + 3)
  | Decimal.D4 d' => uint_value d' (acc * 10 + 4)
  | Decimal.D5 d' => uint_value d' (acc * 10 + 5)
  | Decimal.D6 d' => uint_value d' (acc * 10 + 6)
  | Decimal.D7 d' => uint_value d' (acc * 10 + 7)
  | Decimal.D8 d' => uint_value d' (acc * 10 + 8)
  | Decimal.D9 d' => uint_value d' (acc * 10 + 9)
  end.

(** The names under which [CreateObject] sends the scalar fields. *)
Definition CreateObject_header_names : list string :=
  [h_ContentDisposition; h_ContentEncoding; h_ContentType; h_ETag;
   h_TransferEncoding; h_CopyFrom; h_DeleteAt].

(** The first value a header set holds under a name, taken as it is
    written, and the empty string when it holds none. *)
Definition first_value (hdr : gmap string (list string)) (name : string) : string :=
  match hdr !! name with
  | Some (v :: _) => v
  | _ => EmptyString
  end.

(** The fields of the descriptor handed to [success] that can show in its
    result: the identity and the two numeric fields. *)
Definition same_kept_fields (o1 o2 : ObjectInfo.t) : Prop :=
  ObjectInfo.ID o1 = ObjectInfo.ID o2
  ∧ ObjectInfo.Name o1 = ObjectInfo.Name o2
  ∧ ObjectInfo.Container o1 = ObjectInfo.Container o2
  ∧ ObjectInfo.ContentLength o1 = ObjectInfo.ContentLength o2
  ∧ ObjectInfo.DeleteAt o1 = ObjectInfo.DeleteAt o2.

(** [http.Header.Add(key, value)]: the value is appended to those stored
    under the canonical form of the key. *)
Definition Header_Add (h : gmap string (list string)) (key value : string)
    : gmap string (list string) :=
  <[Go.CanonicalMIMEHeaderKey key
    := default [] (h !! Go.CanonicalMIMEHeaderKey key) ++ [value]]> h.

(** The header set [net/http] holds for a response that carries the given
    headers: every name is stored in its canonical form. *)
Definition received (headers : gmap string string) : gmap string (list string) :=
  map_fold (λ key value h, Header_Add h key value) ∅ headers.

(** No two keys of the map have the same canonical form. *)
Definition distinct_canonical_forms {A : Type} (m : gmap string A) : Prop :=
  ∀ k1 k2, is_Some (m !! k1) → is_Some (m !! k2) →
    Go.CanonicalMIMEHeaderKey k1 = Go.CanonicalMIMEHeaderKey k2 → k1 = k2.

(** An input that carries the metadata mapping Color -> red, whose key is
    in canonical form, and nothing else. *)
Definition create_Color_red : CreateObjectInput.t :=
  {| CreateObjectInput.Name := "f.txt";
     CreateObjectInput.Body := Some Sample.hello;
     CreateObjectInput.Container := "c1";
     CreateObjectInput.ContentDisposition := "";
     CreateObjectInput.ContentEncoding := "";
     CreateObjectInput.ContentType := "";
     CreateObjectInput.CopyFrom := "";
     CreateObjectInput.DeleteAt := 0;
     CreateObjectInput.ObjectMetadata := {[ "Color" := "red" ]};
     CreateObjectInput.ETag := "";
     CreateObjectInput.TransferEncoding := "" |}.

(** More sample collaborators and inputs. *)
Module Scenario.

(** A write that the service refuses. *)
Definition put_refused (name : string) (headers : gmap string string)
    (body : option ReadSeeker) (w : Sample.Store) : option string * Sample.Store :=
  (Some "503 Service Unavailable", w).

(** An input with every optional field set but the copy source. *)
Definition create_full : CreateObjectInput.t :=
  {| CreateObjectInput.Name := "f.txt";
     CreateObjectInput.Body := Some Sample.hello;
     CreateObjectInput.Container := "c1";
     CreateObjectInput.ContentDisposition := "inline";
     CreateObjectInput.ContentEncoding := "gzip";
     CreateObjectInput.ContentType := "text/plain";
     CreateObjectInput.CopyFrom := "";
     CreateObjectInput.DeleteAt := -1700000000;
     CreateObjectInput.ObjectMetadata := {[ "color" := "red"; "size" := "9" ]};
     CreateObjectInput.ETag := "d41d8";
     CreateObjectInput.TransferEncoding := "chunked" |}.

(** An input with a copy source and neither a container nor a name. *)
Definition create_unnamed : CreateObjectInput.t :=
  {| CreateObjectInput.Name := "";
     CreateObjectInput.Body := None;
     CreateObjectInput.Container := "";
     CreateObjectInput.ContentDisposition := "";
     CreateObjectInput.ContentEncoding := "";
     CreateObjectInput.ContentType := "";
     CreateObjectInput.CopyFrom := "c0/g.txt";
     CreateObjectInput.DeleteAt := 0;
     CreateObjectInput.ObjectMetadata := ∅;
     CreateObjectInput.ETag := "";
     CreateObjectInput.TransferEncoding := "" |}.

End Scenario.

(** ** Lemmas on the library functions *)

#[local] Arguments String.append !_ _ / : simpl nomatch.

Lemma append_cancel_l (p a b : string) : p +:+ a = p +:+ b → a = b.
Proof.
  induction p as [|c p IH]; simpl; [done|].
  intros H. injection H as H. by apply IH.
Qed.

Lemma HasPrefix_append (p s : string) : Go.HasPrefix (p +:+ s) p = true.
Proof.
  induction p as [|c p IH]; simpl; [done|].
  by rewrite Ascii.eqb_refl.
Qed.

Lemma slice_from_append (p s : string) : Go.slice_from (String.length p) (p +:+ s) = s.
Proof. induction p as [|c p IH]; simpl; done. Qed.

Lemma TrimPrefix_append (p s : string) : Go.TrimPrefix (p +:+ s) p = s.
Proof.
  unfold Go.TrimPrefix. by rewrite HasPrefix_append, slice_from_append.
Qed.

Lemma HasPrefix_true (s p : string) :
  Go.HasPrefix s p = true → s = p +:+ Go.TrimPrefix s p.
Proof.
  intros H. unfold Go.TrimPrefix. rewrite H.
  revert s H. induction p as [|c p IH]; intros s H; simpl in *; [done|].
  destruct s as [|d s]; [done|].
  destruct (Ascii.eqb d c) eqn:E; [|done].
  apply Ascii.eqb_eq in E as ->. f_equal. by apply IH.
Qed.

Lemma HasPrefix_false (s p k : string) : Go.HasPrefix s p = false → s ≠ p +:+ k.
Proof. intros H ->. by rewrite HasPrefix_append in H. Qed.

Lemma Split_nonempty (s : string) (sep : ascii) : Go.Split s sep ≠ [].
Proof.
  induction s as [|c s IH]; simpl; [done|].
  destruct (Ascii.eqb c sep); [done|]. by destruct (Go.Split s sep).
Qed.

Lemma length_Split (s : string) (sep : ascii) :
  length (Go.Split s sep) = S (Go.Count s sep).
Proof.
  induction s as [|c s IH]; simpl; [done|].
  destruct (Ascii.eqb c sep); simpl; [by rewrite IH|].
  pose proof (Split_nonempty s sep).
  destruct (Go.Split s sep); [done|]. simpl in *. lia.
Qed.

Lemma Split_no_sep (s : string) (sep : ascii) :
  Go.Count s sep = 0 → Go.Split s sep = [s].
Proof.
  induction s as [|c s IH]; simpl; [done|].
  destruct (Ascii.eqb c sep); simpl; [done|].
  intros H. by rewrite IH.
Qed.

Lemma Split_append_sep (a b : string) (sep : ascii) :
  Go.Count a sep = 0 → Go.Split (a +:+ String sep b) sep = a :: Go.Split b sep.
Proof.
  induction a as [|c a IH]; simpl.
  - intros _. by rewrite Ascii.eqb_refl.
  - destruct (Ascii.eqb c sep); simpl; [done|].
    intros H. by rewrite IH.
Qed.

Lemma Count_append (a b : string) (sep : ascii) :
  Go.Count (a +:+ b) sep = Go.Count a sep + Go.Count b sep.
Proof. induction a as [|c a IH]; simpl; [done|]. rewrite IH. lia. Qed.

(** Two parts come out of a split exactly when there is one separator. *)
Lemma Split_two_parts (s : string) (sep : ascii) :
  (∃ p0 p1, Go.Split s sep = [p0; p1]) ↔ Go.Count s sep = 1.
Proof.
  pose proof (length_Split s sep) as L. split.
  - intros (p0 & p1 & E). rewrite E in L. simpl in L. lia.
  - intros C. rewrite C in L.
    destruct (Go.Split s sep) as [|p0 [|p1 [|p2 l]]]; simpl in L; try lia.
    by exists p0, p1.
Qed.

Lemma ParseUint_loop_not_digits (s : string) (n : Z) :
  all_digits s = false → ∃ e, Go.ParseUint_loop s n = inl e.
Proof.
  revert n. induction s as [|c s IH]; intros n; simpl; [done|].
  unfold all_digits in *. simpl. intros H.
  destruct (Go.digit c) as [v|] eqn:D; [|by eexists].
  destruct (Go.maxUint64 <? n * 10 + v)%Z; [by eexists|].
  apply IH. apply andb_false_iff in H as [H|H]; [|done].
  apply bool_decide_eq_false in H. destruct H. by eexists.
Qed.

(** [strconv.Atoi] rejects what does not read as a decimal integer. *)
Lemma Atoi_not_decimal (s : string) :
  decimal_integer s = false → ∃ err, Go.Atoi s = Err (NumError s err).
Proof.
  unfold decimal_integer, Go.Atoi. intros H.
  assert (∃ neg, (match s with
                  | String "+" r => (false, r)
                  | String "-" r => (true, r)
                  | _ => (false, s)
                  end) = (neg, unsigned_part s)) as [neg ->].
  { destruct s as [|c r]; [by eexists|].
    destruct c as [[] [] [] [] [] [] [] []]; by eexists. }
  destruct (unsigned_part s) as [|c r] eqn:U; [by eexists|].
  simpl in H.
  destruct (ParseUint_loop_not_digits (String c r) 0 H) as [e ->].
  by eexists.
Qed.

(** ** Lemmas on the two loops over maps *)

Section MetadataLoops.

Implicit Types (headers m : gmap string string) (hdr : gmap string (list string)).

(** After the loop of [CreateObject], the header named by the prefix and
    a key holds the value of that key, and what was there before when
    the metadata has no such key. *)
Lemma add_metadata_header_prefixed headers m (k : string) :
  map_fold add_metadata_header headers m !! (h_MetadataPrefix +:+ k)
  = match m !! k with
    | Some v => Some v
    | None => headers !! (h_MetadataPrefix +:+ k)
    end.
Proof.
  revert k.
  apply (map_fold_weak_ind
           (λ r m, ∀ k, r !! (h_MetadataPrefix +:+ k)
                        = match m !! k with
                          | Some v => Some v
                          | None => headers !! (h_MetadataPrefix +:+ k)
                          end)).
  - intros k. by rewrite lookup_empty.
  - intros i x m' r Hi IH k. unfold add_metadata_header.
    destruct (decide (i = k)) as [->|Hne].
    + by rewrite !lookup_insert_eq.
    + rewrite !lookup_insert_ne; [apply IH|done|].
      intros E. by apply append_cancel_l in E.
Qed.

(** The loop leaves every header alone whose name lacks the prefix. *)
Lemma add_metadata_header_other headers m (key : string) :
  Go.HasPrefix key h_MetadataPrefix = false →
  map_fold add_metadata_header headers m !! key = headers !! key.
Proof.
  intros Hkey.
  apply (map_fold_weak_ind (λ r _, r !! key = headers !! key)); [done|].
  intros i x m' r _ IH. unfold add_metadata_header.
  rewrite lookup_insert_ne; [done|].
  intros E. by apply (HasPrefix_false key h_MetadataPrefix i).
Qed.

(** The metadata [success] collects has, under a key, the joined values
    of the header named by the prefix and that key. *)
Lemma success_metadata_lookup hdr (k : string) :
  success_metadata hdr !! k
  = (λ value, Go.Join value " ") <$> hdr !! (h_MetadataPrefix +:+ k).
Proof.
  revert k. unfold success_metadata.
  apply (map_fold_weak_ind
           (λ r hdr, ∀ k, r !! k
              = (λ value, Go.Join value " ") <$> hdr !! (h_MetadataPrefix +:+ k))).
  - intros k. by rewrite !lookup_empty.
  - intros i x hdr' r Hi IH k. unfold add_metadata_entry.
    destruct (Go.HasPrefix i h_MetadataPrefix) eqn:P.
    + apply HasPrefix_true in P.
      destruct (decide (Go.TrimPrefix i h_MetadataPrefix = k)) as [E|Hne].
      * rewrite <- E at 1. rewrite lookup_insert_eq.
        rewrite <- E, <- P. by rewrite lookup_insert_eq.
      * rewrite lookup_insert_ne by done.
        rewrite lookup_insert_ne; [apply IH|].
        intros E. rewrite P in E. by apply append_cancel_l in E.
    + rewrite lookup_insert_ne; [apply IH|].
      by apply HasPrefix_false.
Qed.

Lemma range_foldr {A B : Type} (body : string → A → B → B)
    (order : list (string * A)) (b : B) :
  Go.range body order b = foldr (uncurry body) b (reverse order).
Proof.
  revert b. induction order as [|[k v] rest IH]; intros b; simpl; [done|].
  by rewrite IH, reverse_cons, foldr_app.
Qed.

(** A loop whose steps for two different keys commute gives, in any order
    of visit, what [map_fold] gives. *)
Lemma range_any_order {A B : Type} (body : string → A → B → B)
    (m : gmap string A) (order : list (string * A)) (b : B) :
  (∀ k1 v1 k2 v2 b', k1 ≠ k2 →
     body k1 v1 (body k2 v2 b') = body k2 v2 (body k1 v1 b')) →
  order ≡ₚ map_to_list m →
  Go.range body order b = map_fold body b m.
Proof.
  intros Hcomm Horder. rewrite range_foldr, map_fold_foldr.
  assert (NoDup ((reverse order).*1)) as Hnodup.
  { rewrite reverse_Permutation, Horder. apply NoDup_fst_map_to_list. }
  apply (foldr_permutation (=) (uncurry body) b).
  - intros j1 [k1 v1] j2 [k2 v2] b' Hj H1 H2. simpl. apply Hcomm.
    intros ->. apply Hj.
    apply (NoDup_lookup _ _ _ k2 Hnodup); by rewrite list_lookup_fmap, ?H1, ?H2.
  - by rewrite reverse_Permutation.
Qed.

Lemma add_metadata_header_any_order headers m (order : list (string * string)) :
  order ≡ₚ map_to_list m →
  Go.range add_metadata_header order headers = map_fold add_metadata_header headers m.
Proof.
  apply range_any_order. intros k1 v1 k2 v2 b' Hne.
  unfold add_metadata_header. apply insert_insert_ne.
  intros E. by apply append_cancel_l in E.
Qed.

Lemma success_metadata_any_order hdr (order : list (string * list string)) :
  order ≡ₚ map_to_list hdr →
  Go.range add_metadata_entry order ∅ = success_metadata hdr.
Proof.
  apply range_any_order. intros h1 v1 h2 v2 b' Hne.
  unfold add_metadata_entry.
  destruct (Go.HasPrefix h1 h_MetadataPrefix) eqn:P1; [|done].
  destruct (Go.HasPrefix h2 h_MetadataPrefix) eqn:P2; [|done].
  apply insert_insert_ne. intros E. apply Hne.
  rewrite (HasPrefix_true _ _ P1), (HasPrefix_true _ _ P2). by rewrite E.
Qed.

End MetadataLoops.

Lemma CreateObject_headers_unfold (input : CreateObjectInput.t) :
  CreateObject_headers input
  = map_fold add_metadata_header (scalar_headers input)
      (CreateObjectInput.ObjectMetadata input).
Proof.
  unfold CreateObject_headers.
  case_bool_decide as Hsize; [done|].
  assert (CreateObjectInput.ObjectMetadata input = ∅) as ->.
  { apply map_size_empty_iff. lia. }
  by rewrite map_fold_empty.
Qed.

(** Lookups in a map built by a guarded assignment [if b { m[k] = v }]. *)
Lemma lookup_guarded_insert_eq (b : bool) (k v : string) (m : gmap string string) :
  (if b then <[k := v]> m else m) !! k = if b then Some v else m !! k.
Proof. destruct b; [apply lookup_insert_eq|done]. Qed.

Lemma lookup_guarded_insert_ne (b : bool) (k v key : string) (m : gmap string string) :
  k ≠ key → (if b then <[k := v]> m else m) !! key = m !! key.
Proof. intros Hne. destruct b; [by apply lookup_insert_ne|done]. Qed.

Ltac scalar_lookup :=
  unfold scalar_headers; cbv zeta;
  repeat first [ rewrite lookup_guarded_insert_eq
               | rewrite lookup_guarded_insert_ne by done ];
  rewrite ?lookup_empty; unfold omit_if_empty;
  repeat case_bool_decide; done.

(** The scalar headers, one name at a time. *)
Lemma scalar_headers_ContentDisposition (input : CreateObjectInput.t) :
  scalar_headers input !! h_ContentDisposition
  = omit_if_empty (CreateObjectInput.ContentDisposition input).
Proof. scalar_lookup. Qed.

Lemma scalar_headers_ContentEncoding (input : CreateObjectInput.t) :
  scalar_headers input !! h_ContentEncoding
  = omit_if_empty (CreateObjectInput.ContentEncoding input).
Proof. scalar_lookup. Qed.

Lemma scalar_headers_ContentType (input : CreateObjectInput.t) :
  scalar_headers input !! h_ContentType
  = omit_if_empty (CreateObjectInput.ContentType input).
Proof. scalar_lookup. Qed.

Lemma scalar_headers_ETag (input : CreateObjectInput.t) :
  scalar_headers input !! h_ETag = omit_if_empty (CreateObjectInput.ETag input).
Proof. scalar_lookup. Qed.

Lemma scalar_headers_TransferEncoding (input : CreateObjectInput.t) :
  scalar_headers input !! h_TransferEncoding
  = omit_if_empty (CreateObjectInput.TransferEncoding input).
Proof. scalar_lookup. Qed.

Lemma scalar_headers_CopyFrom (input : CreateObjectInput.t) :
  scalar_headers input !! h_CopyFrom
  = omit_if_empty (CreateObjectInput.CopyFrom input).
Proof. scalar_lookup. Qed.

Lemma scalar_headers_DeleteAt (input : CreateObjectInput.t) :
  scalar_headers input !! h_DeleteAt
  = if bool_decide (CreateObjectInput.DeleteAt input = 0%Z) then None
    else Some (Go.Sprintf_d (CreateObjectInput.DeleteAt input)).
Proof. scalar_lookup. Qed.

Lemma scalar_headers_prefixed (input : CreateObjectInput.t) (k : string) :
  scalar_headers input !! (h_MetadataPrefix +:+ k) = None.
Proof.
  unfold scalar_headers; cbv zeta.
  rewrite !lookup_guarded_insert_ne by done. apply lookup_empty.
Qed.

Lemma CreateObject_headers_prefixed (input : CreateObjectInput.t) (k : string) :
  CreateObject_headers input !! (h_MetadataPrefix +:+ k)
  = CreateObjectInput.ObjectMetadata input !! k.
Proof.
  rewrite CreateObject_headers_unfold, add_metadata_header_prefixed.
  destruct (CreateObjectInput.ObjectMetadata input !! k); [done|].
  apply scalar_headers_prefixed.
Qed.

(** ** Header marshalling *)

(** C4. The request headers of [CreateObject] hold each optional string
    field (content disposition, content encoding, content type, checksum,
    transfer encoding, copy source) under its header name exactly when the
    field is not empty, and then with the value of the field; they hold
    [X-Delete-At] exactly when [DeleteAt] is not zero, and then with its
    decimal form, which for 1700000000 is the string 1700000000; and for
    every key the header named by the metadata prefix and the key holds
    what the metadata holds under the key. *)
Theorem CreateObject_headers_marshal (input : CreateObjectInput.t) :
  let headers := CreateObject_headers input in
  headers !! h_ContentDisposition
    = omit_if_empty (CreateObjectInput.ContentDisposition input)
  ∧ headers !! h_ContentEncoding
    = omit_if_empty (CreateObjectInput.ContentEncoding input)
  ∧ headers !! h_ContentType
    = omit_if_empty (CreateObjectInput.ContentType input)
  ∧ headers !! h_ETag = omit_if_empty (CreateObjectInput.ETag input)
  ∧ headers !! h_TransferEncoding
    = omit_if_empty (CreateObjectInput.TransferEncoding input)
  ∧ headers !! h_CopyFrom = omit_if_empty (CreateObjectInput.CopyFrom input)
  ∧ headers !! h_DeleteAt
    = (if bool_decide (CreateObjectInput.DeleteAt input = 0%Z) then None
       else Some (Go.Sprintf_d (CreateObjectInput.DeleteAt input)))
  ∧ Go.Sprintf_d 1700000000 = "1700000000"
  ∧ ∀ k : string,
      headers !! (h_MetadataPrefix +:+ k)
      = CreateObjectInput.ObjectMetadata input !! k.
Proof.
  intros headers. subst headers.
  assert (∀ key, Go.HasPrefix key h_MetadataPrefix = false →
            CreateObject_headers input !! key = scalar_headers input !! key) as Hother.
  { intros key Hkey.
    by rewrite CreateObject_headers_unfold, add_metadata_header_other. }
  split; [by rewrite Hother, scalar_headers_ContentDisposition|].
  split; [by rewrite Hother, scalar_headers_ContentEncoding|].
  split; [by rewrite Hother, scalar_headers_ContentType|].
  split; [by rewrite Hother, scalar_headers_ETag|].
  split; [by rewrite Hother, scalar_headers_TransferEncoding|].
  split; [by rewrite Hother, scalar_headers_CopyFrom|].
  split; [by rewrite Hother, scalar_headers_DeleteAt|].
  split; [reflexivity|].
  intros k. apply CreateObject_headers_prefixed.
Qed.

(** ** Identifier resolution *)

(** C2 (as amended). With an ID that is not empty the resolution returns
    the ID as [getQualifiedName] qualifies it; without one it fails, with
    the message "Either ID or Name and Container must be set during
    DELETE", when the container and the name are both empty, and returns
    the qualified composition of container, slash and name otherwise. *)
Theorem getIdentifier_resolution (getQualifiedName : string → string)
    (id container name : string) :
  (id ≠ "" →
     getIdentifier getQualifiedName id container name = Ok (getQualifiedName id))
  ∧ (id = "" → container = "" → name = "" →
     ∃ e, getIdentifier getQualifiedName id container name = Err e
          ∧ ValidationError e
          ∧ e = Errorf "Either ID or Name and Container must be set during DELETE")
  ∧ (id = "" → ¬ (container = "" ∧ name = "") →
     getIdentifier getQualifiedName id container name
     = Ok (getQualifiedName (container +:+ "/" +:+ name))).
Proof.
  unfold getIdentifier. repeat split.
  - intros Hid. by rewrite bool_decide_eq_true_2.
  - intros -> -> ->. by eexists.
  - intros -> Hne. simpl.
    destruct (bool_decide (container = "")) eqn:C, (bool_decide (name = "")) eqn:N;
      try done.
    apply bool_decide_eq_true in C, N. tauto.
Qed.

Lemma getIdentifier_resolution_witness :
  getIdentifier Sample.qualify_once "c1/f.txt" "" "" = Ok "/Storage-acme/c1/f.txt"
  ∧ (∃ e, getIdentifier Sample.qualify_once "" "" "" = Err e
          ∧ ValidationError e
          ∧ e = Errorf "Either ID or Name and Container must be set during DELETE")
  ∧ getIdentifier Sample.qualify_once "" "c1" "f.txt" = Ok "/Storage-acme/c1/f.txt".
Proof.
  split; [|split].
  - apply (getIdentifier_resolution Sample.qualify_once "c1/f.txt" "" "").
    discriminate.
  - apply (getIdentifier_resolution Sample.qualify_once "" "" ""); reflexivity.
  - apply (getIdentifier_resolution Sample.qualify_once "" "c1" "f.txt");
      [reflexivity|].
    intros [H _]. discriminate H.
Defined.

(** The message of the failed resolution is not the one of the
    specification: the code ends it with "during DELETE". *)
Lemma getIdentifier_message_counterexample :
  getIdentifier Sample.qualify_once "" "" ""
  ≠ Err (Errorf "Either ID or Name and Container must be set").
Proof. discriminate. Qed.

(** ** Compound identifiers *)

(** C6. When neither the container nor the name holds a slash, splitting
    their composition at the slashes gives back the container and the
    name, and [GetObject] sets the descriptor's container and name to
    them when it is given the composition as the ID. *)
Theorem compose_decompose (container name : string) :
  Go.Count container "/" = 0 → Go.Count name "/" = 0 →
  let id := Go.Sprintf_s_slash_s container name in
  Go.Split id "/" = [container; name]
  ∧ ∀ (n c range : string) (newest : bool) (object : ObjectInfo.t),
      GetObject_identity (GetObjectInput.mk id n c range newest) object
      = Ok (set_identity id container name object).
Proof.
  intros Hc Hn id.
  assert (Go.Split id "/" = [container; name]) as Hsplit.
  { unfold id, Go.Sprintf_s_slash_s. simpl.
    by rewrite Split_append_sep, Split_no_sep. }
  split; [done|]. intros n c range newest object.
  unfold GetObject_identity. simpl. rewrite Hsplit.
  rewrite bool_decide_eq_true_2; [done|].
  intros E. by rewrite E in Hsplit.
Qed.

Lemma compose_decompose_witness :
  Go.Split (Go.Sprintf_s_slash_s "c1" "f.txt") "/" = ["c1"; "f.txt"]
  ∧ ∀ (n c range : string) (newest : bool) (object : ObjectInfo.t),
      GetObject_identity
        (GetObjectInput.mk (Go.Sprintf_s_slash_s "c1" "f.txt") n c range newest) object
      = Ok (set_identity (Go.Sprintf_s_slash_s "c1" "f.txt") "c1" "f.txt" object).
Proof. apply (compose_decompose "c1" "f.txt"); reflexivity. Defined.

(** ** Header unmarshalling *)

Lemma numeric_header_absent (hdr : gmap string (list string)) (key : string) (current : Z) :
  Go.Header_Get hdr key = "" → numeric_header hdr key current = Ok current.
Proof. intros H. unfold numeric_header. by rewrite H. Qed.

Lemma numeric_header_present (hdr : gmap string (list string)) (key : string) (current : Z) :
  Go.Header_Get hdr key ≠ "" →
  numeric_header hdr key current = Go.Atoi (Go.Header_Get hdr key).
Proof. intros H. unfold numeric_header. by rewrite bool_decide_eq_true_2. Qed.

(** An error of a numeric header is the [NumError] of its value, and that
    value is not empty. *)
Lemma numeric_header_error (hdr : gmap string (list string)) (key : string)
    (current : Z) (e : error) :
  numeric_header hdr key current = Err e →
  Go.Header_Get hdr key ≠ "" ∧ ∃ err, e = NumError (Go.Header_Get hdr key) err.
Proof.
  unfold numeric_header. case_bool_decide as Hv; [|done].
  intros H. split; [done|]. revert H.
  generalize (Go.Header_Get hdr key). intros v. unfold Go.Atoi.
  destruct (match v with
            | String "+" r => (false, r)
            | String "-" r => (true, r)
            | _ => (false, v)
            end) as [neg body].
  destruct body as [|c r]; [intros [= <-]; by eexists|].
  destruct (Go.ParseUint_loop (String c r) 0) as [e'|un]; [intros [= <-]; by eexists|].
  destruct neg.
  - destruct (2 ^ 63 <? un)%Z; [intros [= <-]; by eexists|done].
  - destruct (2 ^ 63 <=? un)%Z; [intros [= <-]; by eexists|done].
Qed.

(** What [success] returns on the descriptor it was given: the two numeric
    fields as the numeric headers decide, the identity untouched. *)
Lemma success_Ok (resp : Response) (object o : ObjectInfo.t) :
  success resp object = Ok o →
  numeric_header (Header resp) h_ContentLength (ObjectInfo.ContentLength object)
    = Ok (ObjectInfo.ContentLength o)
  ∧ numeric_header (Header resp) h_DeleteAt (ObjectInfo.DeleteAt object)
    = Ok (ObjectInfo.DeleteAt o)
  ∧ ObjectInfo.ID o = ObjectInfo.ID object
  ∧ ObjectInfo.Container o = ObjectInfo.Container object
  ∧ ObjectInfo.Name o = ObjectInfo.Name object.
Proof.
  unfold success.
  destruct (numeric_header _ h_ContentLength _) as [cl|]; [|done].
  destruct (numeric_header _ h_DeleteAt _) as [da|]; [|done].
  by intros [= <-].
Qed.

Lemma success_Err (resp : Response) (object : ObjectInfo.t) (e : error) :
  success resp object = Err e →
  ∃ key err, (key = h_ContentLength ∨ key = h_DeleteAt)
             ∧ Go.Header_Get (Header resp) key ≠ ""
             ∧ e = NumError (Go.Header_Get (Header resp) key) err.
Proof.
  unfold success.
  destruct (numeric_header _ h_ContentLength _) as [cl|e1] eqn:H1.
  - destruct (numeric_header _ h_DeleteAt _) as [da|e2] eqn:H2; [done|].
    intros [= <-]. apply numeric_header_error in H2 as [? [err ->]].
    exists h_DeleteAt, err. auto.
  - intros [= <-]. apply numeric_header_error in H1 as [? [err ->]].
    exists h_ContentLength, err. auto.
Qed.

(** C3. A response whose Content-Length reads 42 gives a descriptor with
    content length 42.  When the Content-Length or the X-Delete-At header
    has a value that does not read as a decimal integer, as abc does not,
    [success] returns a [FormatError] and no descriptor.  A numeric header
    that is absent leaves its field of the descriptor as it was, zero in
    the fresh descriptor, and [success] fails only on a numeric header that
    has a value. *)
Theorem success_numeric_headers (resp : Response) (object : ObjectInfo.t) :
  let hdr := Header resp in
  (Go.Header_Get hdr h_ContentLength = "42" →
     ∀ o, success resp object = Ok o → ObjectInfo.ContentLength o = 42%Z)
  ∧ (∃ o, success {| Header := {[ "Content-Length" := ["42"] ]} |} ObjectInfo.zero = Ok o
          ∧ ObjectInfo.ContentLength o = 42%Z)
  ∧ (∃ e, success {| Header := {[ "Content-Length" := ["abc"] ]} |} ObjectInfo.zero = Err e
          ∧ FormatError e)
  ∧ (∀ key, key = h_ContentLength ∨ key = h_DeleteAt →
       Go.Header_Get hdr key ≠ "" →
       decimal_integer (Go.Header_Get hdr key) = false →
       ∃ e, success resp object = Err e ∧ FormatError e)
  ∧ (Go.Header_Get hdr h_ContentLength = "" →
       ∀ o, success resp object = Ok o →
            ObjectInfo.ContentLength o = ObjectInfo.ContentLength object)
  ∧ (Go.Header_Get hdr h_DeleteAt = "" →
       ∀ o, success resp object = Ok o →
            ObjectInfo.DeleteAt o = ObjectInfo.DeleteAt object)
  ∧ (Go.Header_Get hdr h_ContentLength = "" → Go.Header_Get hdr h_DeleteAt = "" →
       ∃ o, success resp ObjectInfo.zero = Ok o
            ∧ ObjectInfo.ContentLength o = 0%Z ∧ ObjectInfo.DeleteAt o = 0%Z)
  ∧ (∀ e, success resp object = Err e →
       FormatError e
       ∧ ∃ key, (key = h_ContentLength ∨ key = h_DeleteAt)
                ∧ Go.Header_Get hdr key ≠ "").
Proof.
  intros hdr. subst hdr.
  split; [|split; [|split; [|split; [|split; [|split; [|split]]]]]].
  - intros H42 o Ho. apply success_Ok in Ho as (Hcl & _).
    rewrite numeric_header_present in Hcl by (rewrite H42; discriminate).
    rewrite H42 in Hcl. by injection Hcl as <-.
  - eexists. split; reflexivity.
  - eexists. split; [reflexivity|exact I].
  - intros key Hkey Hpresent Hbad.
    destruct (Atoi_not_decimal _ Hbad) as [err Herr].
    unfold success.
    destruct Hkey as [-> | ->].
    + rewrite (numeric_header_present _ h_ContentLength) by done.
      rewrite Herr. eexists. split; [reflexivity|exact I].
    + destruct (numeric_header _ h_ContentLength _) as [cl|e1] eqn:H1.
      * rewrite (numeric_header_present _ h_DeleteAt) by done.
        rewrite Herr. eexists. split; [reflexivity|exact I].
      * apply numeric_header_error in H1 as [_ [err1 ->]].
        eexists. split; [reflexivity|exact I].
  - intros Habsent o Ho. apply success_Ok in Ho as (Hcl & _).
    rewrite numeric_header_absent in Hcl by done. by injection Hcl.
  - intros Habsent o Ho. apply success_Ok in Ho as (_ & Hda & _).
    rewrite numeric_header_absent in Hda by done. by injection Hda.
  - intros Hcl Hda. unfold success.
    rewrite !numeric_header_absent by done. eexists. by split.
  - intros e He. apply success_Err in He as (key & err & Hkey & Hpresent & ->).
    split; [exact I|]. by exists key.
Qed.

Lemma success_numeric_headers_witness :
  (∃ e, success {| Header := {[ "X-Delete-At" := ["abc"] ]} |} ObjectInfo.zero = Err e
        ∧ FormatError e)
  ∧ (∀ o, success {| Header := {[ "Content-Length" := ["42"] ]} |} ObjectInfo.zero = Ok o →
          ObjectInfo.ContentLength o = 42%Z)
  ∧ (∃ o, success {| Header := {[ "Content-Type" := ["text/plain"] ]} |} ObjectInfo.zero = Ok o
          ∧ ObjectInfo.ContentLength o = 0%Z ∧ ObjectInfo.DeleteAt o = 0%Z).
Proof.
  split; [|split].
  - apply (success_numeric_headers
             {| Header := {[ "X-Delete-At" := ["abc"] ]} |} ObjectInfo.zero)
      with (key := h_DeleteAt).
    + right. reflexivity.
    + vm_compute. discriminate.
    + reflexivity.
  - apply (success_numeric_headers
             {| Header := {[ "Content-Length" := ["42"] ]} |} ObjectInfo.zero).
    reflexivity.
  - apply (success_numeric_headers
             {| Header := {[ "Content-Type" := ["text/plain"] ]} |} ObjectInfo.zero);
      reflexivity.
Defined.

(** ** The operation wrappers *)

Section Wrappers.

Context {World : Type}.
Variable getQualifiedName : string → string.
Variable createResourceBody :
  string → gmap string string → option ReadSeeker → World → option string * World.
Variable getResourceHeaders :
  string → ObjectInfo.t → gmap string string → World
  → (string + Response * ObjectInfo.t) * World.
Variable deleteResource : string → World → option string * World.

Abbreviation GetObject' := (GetObject World getQualifiedName getResourceHeaders).
Abbreviation DeleteObject' := (DeleteObject World getQualifiedName deleteResource).
Abbreviation CreateObject' :=
  (CreateObject World getQualifiedName createResourceBody getResourceHeaders).

(** [GetObject] once the identifier is resolved: one call of
    [getResourceHeaders] under the resolved name, then the identity
    block and [success] on what the call returned. *)
Lemma GetObject_resolved (input : GetObjectInput.t) (st : ClientState World)
    (name : string) :
  getIdentifier getQualifiedName (GetObjectInput.ID input)
    (GetObjectInput.Container input) (GetObjectInput.Name input) = Ok name →
  GetObject' input st
  = let '(r, w) := getResourceHeaders name ObjectInfo.zero (GetObject_headers input)
                     (world st) in
    let st' := after (Call_getResourceHeaders name (GetObject_headers input)) w st in
    match r with
    | inl e => (Err (TransportError e), st')
    | inr (resp, object) =>
        (match GetObject_identity input object with
         | Ok object' => success resp object'
         | Err e => Err e
         end, st')
    end.
Proof.
  intros Hname. unfold GetObject, bind, lift, call_getResourceHeaders, log.
  rewrite Hname. fold (GetObject_headers input).
  destruct (getResourceHeaders name ObjectInfo.zero (GetObject_headers input) (world st))
    as [[e|[resp object]] w]; [done|].
  unfold after. by destruct (GetObject_identity input object).
Qed.

Lemma GetObject_unresolved (input : GetObjectInput.t) (st : ClientState World)
    (e : error) :
  getIdentifier getQualifiedName (GetObjectInput.ID input)
    (GetObjectInput.Container input) (GetObjectInput.Name input) = Err e →
  GetObject' input st = (Err e, st).
Proof. intros He. unfold GetObject, bind, lift. by rewrite He. Qed.

(** [DeleteObject] once the identifier is resolved: one call of
    [deleteResource], under the resolved name qualified again. *)
Lemma DeleteObject_resolved (input : DeleteObjectInput.t) (st : ClientState World)
    (name : string) :
  getIdentifier getQualifiedName (DeleteObjectInput.ID input)
    (DeleteObjectInput.Container input) (DeleteObjectInput.Name input) = Ok name →
  DeleteObject' input st
  = let '(r, w) := deleteResource (getQualifiedName name) (world st) in
    (match r with None => Ok tt | Some e => Err (TransportError e) end,
     after (Call_deleteResource (getQualifiedName name)) w st).
Proof.
  intros Hname. unfold DeleteObject, bind, lift, call_deleteResource, log.
  rewrite Hname. by destruct (deleteResource _ _).
Qed.

(** Without an explicit ID the identity block cannot fail, and the
    descriptor gets the composed ID. *)
Lemma GetObject_identity_composed (input : GetObjectInput.t) (object : ObjectInfo.t) :
  GetObjectInput.ID input = "" →
  GetObject_identity input object
  = Ok (set_identity
          (GetObjectInput.Container input +:+ "/" +:+ GetObjectInput.Name input)
          (GetObjectInput.Container input) (GetObjectInput.Name input) object).
Proof. intros H. unfold GetObject_identity. by rewrite H. Qed.

(** A transport error and a [NumError] are no validation errors. *)
Lemma FormatError_not_ValidationError (e : error) :
  FormatError e → ¬ ValidationError e.
Proof. destruct e; simpl; [intros [] | intros _ [] | intros []]. Qed.

(** The wrappers add resource calls to the log and take none away. *)
Lemma GetObject_calls (input : GetObjectInput.t) (st : ClientState World) :
  ∃ cs, calls (GetObject' input st).2 = calls st ++ cs.
Proof.
  destruct (getIdentifier getQualifiedName (GetObjectInput.ID input)
              (GetObjectInput.Container input) (GetObjectInput.Name input))
    as [name|e] eqn:Hid.
  - rewrite (GetObject_resolved _ _ _ Hid).
    destruct (getResourceHeaders _ _ _ _) as [[e|[resp object]] w];
      simpl; by eexists.
  - rewrite (GetObject_unresolved _ _ _ Hid). exists []. by rewrite app_nil_r.
Qed.

(** What [GetObject] returns without an explicit ID carries the composed
    ID and the container and name of the input. *)
Lemma GetObject_composed_Ok (input : GetObjectInput.t) (st st' : ClientState World)
    (o : ObjectInfo.t) :
  GetObjectInput.ID input = "" →
  GetObject' input st = (Ok o, st') →
  ObjectInfo.ID o = GetObjectInput.Container input +:+ "/" +:+ GetObjectInput.Name input
  ∧ ObjectInfo.Container o = GetObjectInput.Container input
  ∧ ObjectInfo.Name o = GetObjectInput.Name input.
Proof.
  intros Hid Hrun.
  destruct (getIdentifier getQualifiedName (GetObjectInput.ID input)
              (GetObjectInput.Container input) (GetObjectInput.Name input))
    as [name|e] eqn:Hres.
  - rewrite (GetObject_resolved _ _ _ Hres) in Hrun.
    destruct (getResourceHeaders _ _ _ _) as [[e|[resp object]] w]; [done|].
    rewrite GetObject_identity_composed in Hrun by done.
    injection Hrun as Hrun _. apply success_Ok in Hrun as (_ & _ & -> & -> & ->).
    done.
  - by rewrite (GetObject_unresolved _ _ _ Hres) in Hrun.
Qed.

(** Without an explicit ID [GetObject] returns no validation error once
    the identifier is resolved. *)
Lemma GetObject_composed_Err (input : GetObjectInput.t) (st : ClientState World)
    (name : string) (e : error) :
  GetObjectInput.ID input = "" →
  getIdentifier getQualifiedName (GetObjectInput.ID input)
    (GetObjectInput.Container input) (GetObjectInput.Name input) = Ok name →
  (GetObject' input st).1 = Err e → ¬ ValidationError e.
Proof.
  intros Hid Hres. rewrite (GetObject_resolved _ _ _ Hres).
  destruct (getResourceHeaders _ _ _ _) as [[e'|[resp object]] w]; cbn [fst].
  - intros [= <-]. simpl. intros [].
  - rewrite GetObject_identity_composed by done. intros He.
    apply success_Err in He as (key & err & _ & _ & ->). simpl. intros [].
Qed.

(** C8. With no body and no copy source [CreateObject] fails with the
    validation error "Body cannot be nil", and it leaves the state as it
    found it: no resource call is added to the log and the world behind
    the [StorageClient] is not touched. *)
Theorem CreateObject_nil_body (input : CreateObjectInput.t) (st : ClientState World) :
  CreateObjectInput.Body input = None →
  CreateObjectInput.CopyFrom input = "" →
  CreateObject' input st = (Err (Errorf "Body cannot be nil"), st)
  ∧ ValidationError (Errorf "Body cannot be nil")
  ∧ calls (CreateObject' input st).2 = calls st.
Proof.
  intros Hbody Hcopy.
  assert (CreateObject' input st = (Err (Errorf "Body cannot be nil"), st)) as ->.
  { unfold CreateObject. by rewrite Hbody, Hcopy. }
  done.
Qed.

(** C1. When the input has a body or a copy source and the write
    succeeds, [CreateObject] has handed [createResourceBody] the qualified
    composition of container, slash and name together with the marshalled
    headers and the body, and what it returns is what [GetObject] returns
    when run next on the same container and name; a descriptor it returns
    has the ID container, slash, name. *)
Theorem CreateObject_returns_GetObject (input : CreateObjectInput.t)
    (st : ClientState World) (w' : World) :
  CreateObjectInput.Body input ≠ None ∨ CreateObjectInput.CopyFrom input ≠ "" →
  let name := getQualifiedName (CreateObjectInput.Container input +:+ "/"
                                +:+ CreateObjectInput.Name input) in
  let write := Call_createResourceBody name (CreateObject_headers input)
                 (CreateObjectInput.Body input) in
  createResourceBody name (CreateObject_headers input) (CreateObjectInput.Body input)
    (world st) = (None, w') →
  CreateObject' input st = GetObject' (getInput input) (after write w' st)
  ∧ (∃ cs, calls (CreateObject' input st).2 = calls st ++ write :: cs)
  ∧ ∀ o st', CreateObject' input st = (Ok o, st') →
      ObjectInfo.ID o
      = CreateObjectInput.Container input +:+ "/" +:+ CreateObjectInput.Name input
      ∧ ObjectInfo.Container o = CreateObjectInput.Container input
      ∧ ObjectInfo.Name o = CreateObjectInput.Name input.
Proof.
  intros Hpre name write Hwrite.
  assert (CreateObject' input st = GetObject' (getInput input) (after write w' st)) as ->.
  { assert (bool_decide (CreateObjectInput.Body input = None)
            && bool_decide (CreateObjectInput.CopyFrom input = "") = false) as Hguard.
    { destruct Hpre as [Hbody|Hcopy].
      - by rewrite (bool_decide_eq_false_2 _ Hbody).
      - rewrite (bool_decide_eq_false_2 (_ = "") Hcopy). apply andb_false_r. }
    unfold CreateObject. rewrite Hguard.
    unfold bind, call_createResourceBody, log, Go.Sprintf_s_slash_s.
    subst write name. by rewrite Hwrite. }
  split; [done|]. split.
  - destruct (GetObject_calls (getInput input)
                (after write w' st)) as [cs ->].
    exists cs. simpl. by rewrite <- app_assoc.
  - intros o st' Hrun. by apply GetObject_composed_Ok in Hrun.
Qed.

(** C9. [GetObject] with an explicit ID whose request succeeds fails with
    a validation error exactly when the ID does not hold one slash, that
    is, when splitting it at the slashes does not give two parts; the
    message is then "Unknown ID specified: " followed by the ID, which
    starts with "Unknown ID specified".  With one slash it returns
    what [success] makes of the descriptor whose container and name are
    the two parts and whose ID is the one of the input, so a descriptor
    it returns has that ID, container and name. *)
Theorem GetObject_explicit_ID (input : GetObjectInput.t) (st : ClientState World)
    (resp : Response) (object : ObjectInfo.t) (w' : World) :
  GetObjectInput.ID input ≠ "" →
  let id := GetObjectInput.ID input in
  let request := Call_getResourceHeaders (getQualifiedName id) (GetObject_headers input) in
  getResourceHeaders (getQualifiedName id) ObjectInfo.zero (GetObject_headers input)
    (world st) = (inr (resp, object), w') →
  (Go.Count id "/" ≠ 1 →
     GetObject' input st
     = (Err (Errorf ("Unknown ID specified: " +:+ id)), after request w' st))
  ∧ (Go.Count id "/" = 1 →
     ∃ container name,
       Go.Split id "/" = [container; name]
       ∧ GetObject' input st
         = (success resp (set_identity id container name object), after request w' st)
       ∧ ∀ o, success resp (set_identity id container name object) = Ok o →
              ObjectInfo.ID o = id
              ∧ ObjectInfo.Container o = container
              ∧ ObjectInfo.Name o = name)
  ∧ ((∃ e, (GetObject' input st).1 = Err e ∧ ValidationError e)
     ↔ Go.Count id "/" ≠ 1)
  ∧ ((∃ part0 part1, Go.Split id "/" = [part0; part1]) ↔ Go.Count id "/" = 1)
  ∧ Go.HasPrefix ("Unknown ID specified: " +:+ id) "Unknown ID specified" = true.
Proof.
  intros Hid id request Hrequest.
  assert (getIdentifier getQualifiedName (GetObjectInput.ID input)
            (GetObjectInput.Container input) (GetObjectInput.Name input)
          = Ok (getQualifiedName id)) as Hres.
  { unfold getIdentifier. by rewrite bool_decide_eq_true_2. }
  pose proof (GetObject_resolved _ st _ Hres) as Hrun.
  rewrite Hrequest in Hrun. fold request in Hrun.
  unfold GetObject_identity in Hrun. rewrite bool_decide_eq_true_2 in Hrun by done.
  fold id in Hrun.
  assert (Go.Count id "/" ≠ 1 →
          GetObject' input st
          = (Err (Errorf ("Unknown ID specified: " +:+ id)), after request w' st)) as Hbad.
  { intros Hcount. rewrite Hrun.
    destruct (Go.Split id "/") as [|p0 [|p1 [|p2 ps]]] eqn:Hsplit; try done.
    destruct Hcount. apply Split_two_parts. by exists p0, p1. }
  assert (Go.Count id "/" = 1 →
          ∃ container name,
            Go.Split id "/" = [container; name]
            ∧ GetObject' input st
              = (success resp (set_identity id container name object),
                 after request w' st)) as Hgood.
  { intros Hcount. apply Split_two_parts in Hcount as (p0 & p1 & Hsplit).
    exists p0, p1. split; [done|]. rewrite Hrun, Hsplit.
    by destruct (success resp (set_identity id p0 p1 object)). }
  split; [done|]. split.
  - intros Hcount. destruct (Hgood Hcount) as (container & name & Hsplit & Hget).
    exists container, name. split; [done|]. split; [done|].
    intros o Ho. by apply success_Ok in Ho as (_ & _ & -> & -> & ->).
  - split; [|split; [apply Split_two_parts|reflexivity]]. split.
    + intros (e & He & Hval) Hcount.
      destruct (Hgood Hcount) as (container & name & _ & Hget).
      rewrite Hget in He. simpl in He.
      apply success_Err in He as (key & err & _ & _ & ->). done.
    + intros Hcount. rewrite (Hbad Hcount). by eexists.
Qed.

(** C10. Without an explicit ID and with one of container and name empty
    and the other not, the resolution succeeds with the qualified
    composition of the two around a slash; [GetObject] sends its request
    under that name and [DeleteObject] under that name qualified again,
    and neither returns a validation error. *)
Theorem getIdentifier_one_empty (container name range : string) (newest : bool)
    (st : ClientState World) :
  (container = "" ∧ name ≠ "") ∨ (container ≠ "" ∧ name = "") →
  let path := getQualifiedName (container +:+ "/" +:+ name) in
  let get := GetObjectInput.mk "" name container range newest in
  let del := DeleteObjectInput.mk "" name container in
  getIdentifier getQualifiedName "" container name = Ok path
  ∧ calls (GetObject' get st).2
    = calls st ++ [Call_getResourceHeaders path (GetObject_headers get)]
  ∧ (∀ e, (GetObject' get st).1 = Err e → ¬ ValidationError e)
  ∧ calls (DeleteObject' del st).2
    = calls st ++ [Call_deleteResource (getQualifiedName path)]
  ∧ (∀ e, (DeleteObject' del st).1 = Err e → ¬ ValidationError e).
Proof.
  intros Hone path get del.
  assert (getIdentifier getQualifiedName "" container name = Ok path) as Hres.
  { unfold getIdentifier. simpl.
    destruct Hone as [[-> Hn]|[Hc ->]].
    - by rewrite (bool_decide_eq_false_2 _ Hn).
    - by rewrite (bool_decide_eq_false_2 _ Hc). }
  split; [done|]. split; [|split; [|split]].
  - rewrite (GetObject_resolved get st path Hres).
    by destruct (getResourceHeaders _ _ _ _) as [[e|[resp object]] w].
  - intros e. by apply (GetObject_composed_Err get st path).
  - rewrite (DeleteObject_resolved del st path Hres).
    by destruct (deleteResource _ _) as [r w].
  - intros e.
    rewrite (DeleteObject_resolved del st path Hres).
    destruct (deleteResource _ _) as [[msg|] w]; simpl; [|done].
    intros [= <-]. simpl. intros [].
Qed.

(** When the resolution succeeds, [GetObject] hands the resolved
    identifier to [getResourceHeaders], and [DeleteObject] hands
    [deleteResource] that identifier passed through [getQualifiedName]
    once more; the two names are the same string whenever
    [getQualifiedName] returns a resolved identifier as it is. *)
Lemma DeleteObject_name (id container name range : string) (newest : bool)
    (resolved : string) (st : ClientState World) :
  getIdentifier getQualifiedName id container name = Ok resolved →
  let get := GetObjectInput.mk id name container range newest in
  let del := DeleteObjectInput.mk id name container in
  calls (DeleteObject' del st).2
    = calls st ++ [Call_deleteResource (getQualifiedName resolved)]
  ∧ calls (GetObject' get st).2
    = calls st ++ [Call_getResourceHeaders resolved (GetObject_headers get)]
  ∧ (getQualifiedName resolved = resolved →
     Delete_hands_resolved_identifier getQualifiedName deleteResource del st).
Proof.
  intros Hres get del.
  assert (calls (DeleteObject' del st).2
          = calls st ++ [Call_deleteResource (getQualifiedName resolved)]) as Hdel.
  { rewrite (DeleteObject_resolved del st resolved Hres).
    by destruct (deleteResource _ _) as [r w]. }
  split; [done|]. split.
  - rewrite (GetObject_resolved get st resolved Hres).
    by destruct (getResourceHeaders _ _ _ _) as [[e|[resp object]] w].
  - intros Hfix resolved' Hres'. simpl in Hres'.
    rewrite Hres in Hres'. injection Hres' as <-.
    by rewrite Hdel, Hfix.
Qed.

End Wrappers.

(** ** The wrappers on the sample service *)

Lemma CreateObject_nil_body_witness :
  CreateObject Sample.Store Sample.qualify_once Sample.put Sample.head
    Sample.create_nothing Sample.start
  = (Err (Errorf "Body cannot be nil"), Sample.start)
  ∧ ValidationError (Errorf "Body cannot be nil")
  ∧ calls (CreateObject Sample.Store Sample.qualify_once Sample.put Sample.head
             Sample.create_nothing Sample.start).2
    = calls Sample.start.
Proof.
  apply (CreateObject_nil_body Sample.qualify_once Sample.put Sample.head
           Sample.create_nothing Sample.start); reflexivity.
Defined.

Lemma CreateObject_returns_GetObject_witness :
  let write := Call_createResourceBody "/Storage-acme/c1/f.txt"
                 (CreateObject_headers Sample.create_f_txt) (Some Sample.hello) in
  let w' : Sample.Store :=
    {[ "/Storage-acme/c1/f.txt" := echo (CreateObject_headers Sample.create_f_txt) ]} in
  CreateObject Sample.Store Sample.qualify_once Sample.put Sample.head
    Sample.create_f_txt Sample.start
  = GetObject Sample.Store Sample.qualify_once Sample.head
      (getInput Sample.create_f_txt) (after write w' Sample.start)
  ∧ (∃ cs, calls (CreateObject Sample.Store Sample.qualify_once Sample.put Sample.head
                    Sample.create_f_txt Sample.start).2
           = calls Sample.start ++ write :: cs)
  ∧ ∀ o st', CreateObject Sample.Store Sample.qualify_once Sample.put Sample.head
               Sample.create_f_txt Sample.start = (Ok o, st') →
      ObjectInfo.ID o = "c1/f.txt"
      ∧ ObjectInfo.Container o = "c1"
      ∧ ObjectInfo.Name o = "f.txt".
Proof.
  intros write w'.
  apply (CreateObject_returns_GetObject Sample.qualify_once Sample.put Sample.head
           Sample.create_f_txt Sample.start w').
  - left. discriminate.
  - reflexivity.
Defined.

Lemma GetObject_explicit_ID_witness :
  GetObject Sample.Store Sample.qualify_once Sample.head
    (GetObjectInput.mk "c1" "" "" "" false) Sample.stored
  = (Err (Errorf "Unknown ID specified: c1"),
     after (Call_getResourceHeaders "/Storage-acme/c1"
              (GetObject_headers (GetObjectInput.mk "c1" "" "" "" false)))
       (world Sample.stored) Sample.stored)
  ∧ ∃ container name,
      Go.Split "c1/f.txt" "/" = [container; name]
      ∧ GetObject Sample.Store Sample.qualify_once Sample.head
          (GetObjectInput.mk "c1/f.txt" "" "" "" false) Sample.stored
        = (success {| Header := {[ "Content-Type" := ["text/plain"] ]} |}
             (set_identity "c1/f.txt" container name ObjectInfo.zero),
           after (Call_getResourceHeaders "/Storage-acme/c1/f.txt"
                    (GetObject_headers (GetObjectInput.mk "c1/f.txt" "" "" "" false)))
             (world Sample.stored) Sample.stored)
      ∧ ∀ o, success {| Header := {[ "Content-Type" := ["text/plain"] ]} |}
               (set_identity "c1/f.txt" container name ObjectInfo.zero) = Ok o →
             ObjectInfo.ID o = "c1/f.txt"
             ∧ ObjectInfo.Container o = container
             ∧ ObjectInfo.Name o = name.
Proof.
  split.
  - apply (GetObject_explicit_ID Sample.qualify_once Sample.head
             (GetObjectInput.mk "c1" "" "" "" false) Sample.stored
             {| Header := {[ "Content-Type" := ["text/plain"] ]} |} ObjectInfo.zero
             (world Sample.stored)).
    + discriminate.
    + reflexivity.
    + vm_compute. discriminate.
  - apply (GetObject_explicit_ID Sample.qualify_once Sample.head
             (GetObjectInput.mk "c1/f.txt" "" "" "" false) Sample.stored
             {| Header := {[ "Content-Type" := ["text/plain"] ]} |} ObjectInfo.zero
             (world Sample.stored)).
    + discriminate.
    + reflexivity.
    + reflexivity.
Defined.

Lemma getIdentifier_one_empty_witness :
  getIdentifier Sample.qualify_once "" "c1" "" = Ok "/Storage-acme/c1/"
  ∧ calls (GetObject Sample.Store Sample.qualify_once Sample.head
             (GetObjectInput.mk "" "" "c1" "" false) Sample.start).2
    = calls Sample.start
      ++ [Call_getResourceHeaders "/Storage-acme/c1/"
            (GetObject_headers (GetObjectInput.mk "" "" "c1" "" false))]
  ∧ (∀ e, (GetObject Sample.Store Sample.qualify_once Sample.head
             (GetObjectInput.mk "" "" "c1" "" false) Sample.start).1 = Err e →
          ¬ ValidationError e)
  ∧ calls (DeleteObject Sample.Store Sample.qualify_once Sample.remove
             (DeleteObjectInput.mk "" "" "c1") Sample.start).2
    = calls Sample.start ++ [Call_deleteResource "/Storage-acme/c1/"]
  ∧ (∀ e, (DeleteObject Sample.Store Sample.qualify_once Sample.remove
             (DeleteObjectInput.mk "" "" "c1") Sample.start).1 = Err e →
          ¬ ValidationError e).
Proof.
  apply (getIdentifier_one_empty Sample.qualify_once Sample.head Sample.remove
           "c1" "" "" false Sample.start).
  right. split; [discriminate|reflexivity].
Defined.

Lemma DeleteObject_name_witness :
  calls (DeleteObject Sample.Store Sample.qualify_once Sample.remove
           (DeleteObjectInput.mk "c1/f.txt" "" "") Sample.stored).2
  = calls Sample.stored ++ [Call_deleteResource "/Storage-acme/c1/f.txt"]
  ∧ calls (GetObject Sample.Store Sample.qualify_once Sample.head
             (GetObjectInput.mk "c1/f.txt" "" "" "" false) Sample.stored).2
    = calls Sample.stored
      ++ [Call_getResourceHeaders "/Storage-acme/c1/f.txt"
            (GetObject_headers (GetObjectInput.mk "c1/f.txt" "" "" "" false))]
  ∧ (Sample.qualify_once "/Storage-acme/c1/f.txt" = "/Storage-acme/c1/f.txt" →
     Delete_hands_resolved_identifier Sample.qualify_once Sample.remove
       (DeleteObjectInput.mk "c1/f.txt" "" "") Sample.stored).
Proof.
  apply (DeleteObject_name Sample.qualify_once Sample.head Sample.remove
           "c1/f.txt" "" "" "" false "/Storage-acme/c1/f.txt" Sample.stored).
  reflexivity.
Defined.


(** The end-to-end scenario on the sample service: the write goes out under
    the qualified name of c1/f.txt with the content type as its one header,
    the read follows, and the descriptor comes back with the ID c1/f.txt. *)
Example CreateObject_end_to_end :
  let run := CreateObject Sample.Store Sample.qualify_once Sample.put Sample.head
               Sample.create_f_txt Sample.start in
  run.1 = Ok (set_identity "c1/f.txt" "c1" "f.txt"
                (ObjectInfo.mk "" "" "" "" "" "" 0 "text/plain" "" "" "" 0 "" ∅ "" ""))
  ∧ calls run.2
    = [Call_createResourceBody "/Storage-acme/c1/f.txt"
         {[ "Content-Type" := "text/plain" ]} (Some Sample.hello);
       Call_getResourceHeaders "/Storage-acme/c1/f.txt"
         {[ "Range" := ""; "X-Newest" := "false" ]}].
Proof. split; reflexivity. Qed.

(** The same ID deleted through the two sample qualifications: the one that
    leaves a qualified name alone sends the name [GetObject] sends, the one
    that always prefixes sends the prefix twice. *)
Example DeleteObject_qualifies_again :
  calls (DeleteObject Sample.Store Sample.qualify_once Sample.remove
           (DeleteObjectInput.mk "c1/f.txt" "" "") Sample.stored).2
  = [Call_deleteResource "/Storage-acme/c1/f.txt"]
  ∧ calls (DeleteObject Sample.Store Sample.qualify_always Sample.remove
             (DeleteObjectInput.mk "c1/f.txt" "" "") Sample.stored).2
    = [Call_deleteResource "/Storage-acme//Storage-acme/c1/f.txt"].
Proof. split; reflexivity. Qed.

(** * Further properties of the code *)

(** ** Decimal integers written and read back *)

Lemma uint_value_ge (d : Decimal.uint) (acc : Z) :
  (0 ≤ acc)%Z → (acc ≤ uint_value d acc)%Z.
Proof.
  revert acc. induction d as [|d IH|d IH|d IH|d IH|d IH|d IH|d IH|d IH|d IH|d IH];
    intros acc Hacc; simpl; [lia|..];
    (etrans; [|apply IH; lia]); lia.
Qed.

Lemma ParseUint_loop_digits (d : Decimal.uint) (acc : Z) :
  (0 ≤ acc)%Z → (uint_value d acc ≤ Go.maxUint64)%Z →
  Go.ParseUint_loop (NilEmpty.string_of_uint d) acc = inr (uint_value d acc).
Proof.
  revert acc. induction d as [|d IH|d IH|d IH|d IH|d IH|d IH|d IH|d IH|d IH|d IH];
    intros acc Hacc Hmax; [done|..];
    cbn [NilEmpty.string_of_uint Go.ParseUint_loop uint_value] in *;
    match goal with
    | |- context [Go.digit ?c] =>
        let v := eval vm_compute in (Go.digit c) in
        change (Go.digit c) with v
    end; cbv beta iota zeta;
    match goal with
    | H : (uint_value ?d' ?n ≤ _)%Z |- _ =>
        pose proof (uint_value_ge d' n ltac:(lia))
    end;
    rewrite (proj2 (Z.ltb_ge _ _)) by lia;
    apply IH; lia.
Qed.

Lemma uint_value_of_uint_acc (d : Decimal.uint) (acc : positive) :
  Z.pos (Pos.of_uint_acc d acc) = uint_value d (Z.pos acc).
Proof.
  revert acc. induction d as [|d IH|d IH|d IH|d IH|d IH|d IH|d IH|d IH|d IH|d IH];
    intros acc; simpl; [done|..]; rewrite IH; f_equal; lia.
Qed.

Lemma uint_value_of_uint (d : Decimal.uint) :
  Z.of_N (Pos.of_uint d) = uint_value d 0.
Proof.
  induction d as [|d IH|d IH|d IH|d IH|d IH|d IH|d IH|d IH|d IH|d IH];
    simpl; [done|done|..]; apply uint_value_of_uint_acc.
Qed.

Lemma uint_value_to_uint (p : positive) : uint_value (Pos.to_uint p) 0 = Z.pos p.
Proof. by rewrite <- uint_value_of_uint, DecimalPos.Unsigned.of_to. Qed.

Lemma Sprintf_d_pos (p : positive) :
  Go.Sprintf_d (Z.pos p) = NilEmpty.string_of_uint (Pos.to_uint p).
Proof.
  unfold Go.Sprintf_d. simpl.
  pose proof (DecimalPos.Unsigned.to_uint_nonnil p). by destruct (Pos.to_uint p).
Qed.

Lemma Sprintf_d_neg (p : positive) :
  Go.Sprintf_d (Z.neg p) = String "-" (NilEmpty.string_of_uint (Pos.to_uint p)).
Proof.
  unfold Go.Sprintf_d. simpl.
  pose proof (DecimalPos.Unsigned.to_uint_nonnil p). by destruct (Pos.to_uint p).
Qed.

Lemma Atoi_digits (d : Decimal.uint) :
  d ≠ Decimal.Nil →
  Go.Atoi (NilEmpty.string_of_uint d)
  = match Go.ParseUint_loop (NilEmpty.string_of_uint d) 0 with
    | inl e => Err (NumError (NilEmpty.string_of_uint d) e)
    | inr un => if (2 ^ 63 <=? un)%Z
                then Err (NumError (NilEmpty.string_of_uint d) ErrRange) else Ok un
    end.
Proof. intros Hd. by destruct d. Qed.

Lemma Atoi_minus_digits (d : Decimal.uint) :
  d ≠ Decimal.Nil →
  Go.Atoi (String "-" (NilEmpty.string_of_uint d))
  = match Go.ParseUint_loop (NilEmpty.string_of_uint d) 0 with
    | inl e => Err (NumError (String "-" (NilEmpty.string_of_uint d)) e)
    | inr un => if (2 ^ 63 <? un)%Z
                then Err (NumError (String "-" (NilEmpty.string_of_uint d)) ErrRange)
                else Ok (- un)%Z
    end.
Proof. intros Hd. by destruct d. Qed.

(** [strconv.Atoi] reads back what [fmt.Sprintf] with the verb d wrote,
    for every value of a 64-bit [int]. *)
Lemma Atoi_Sprintf_d (n : Z) :
  (Go.minInt ≤ n ≤ Go.maxInt)%Z → Go.Atoi (Go.Sprintf_d n) = Ok n.
Proof.
  unfold Go.minInt, Go.maxInt. intros Hn.
  destruct n as [|p|p].
  - reflexivity.
  - rewrite Sprintf_d_pos, Atoi_digits by apply DecimalPos.Unsigned.to_uint_nonnil.
    rewrite ParseUint_loop_digits; rewrite ?uint_value_to_uint;
      unfold Go.maxUint64; try lia.
    by rewrite (proj2 (Z.leb_gt _ _)) by lia.
  - rewrite Sprintf_d_neg, Atoi_minus_digits by apply DecimalPos.Unsigned.to_uint_nonnil.
    rewrite ParseUint_loop_digits; rewrite ?uint_value_to_uint;
      unfold Go.maxUint64; try lia.
    by rewrite (proj2 (Z.ltb_ge _ _)) by lia.
Qed.

Lemma digit_bounds (c : ascii) (v : Z) : Go.digit c = Some v → (0 ≤ v ≤ 9)%Z.
Proof.
  unfold Go.digit. destruct (_ && _) eqn:E; [|done].
  intros [= <-]. apply andb_true_iff in E as [E1 E2].
  apply Z.leb_le in E1, E2. lia.
Qed.

Lemma ParseUint_loop_Ok (s : string) (acc un : Z) :
  (0 ≤ acc)%Z → Go.ParseUint_loop s acc = inr un →
  (acc ≤ un)%Z ∧ all_digits s = true.
Proof.
  revert acc. induction s as [|c s IH]; intros acc Hacc; simpl.
  - intros [= <-]. split; [lia|done].
  - destruct (Go.digit c) as [v|] eqn:D; [|done].
    apply digit_bounds in D as Hv.
    destruct (Go.maxUint64 <? acc * 10 + v)%Z; [done|].
    intros H. apply IH in H as [Hle Hdigits]; [|lia].
    split; [lia|]. unfold all_digits in *. simpl. rewrite Hdigits, D.
    by rewrite bool_decide_eq_true_2 by by eexists.
Qed.

(** What [strconv.Atoi] accepts reads as a decimal integer, and its value
    is one of a 64-bit [int]. *)
Lemma Atoi_Ok (s : string) (n : Z) :
  Go.Atoi s = Ok n →
  decimal_integer s = true ∧ (Go.minInt ≤ n ≤ Go.maxInt)%Z.
Proof.
  unfold decimal_integer, Go.Atoi, Go.minInt, Go.maxInt.
  assert (∃ neg, (match s with
                  | String "+" r => (false, r)
                  | String "-" r => (true, r)
                  | _ => (false, s)
                  end) = (neg, unsigned_part s)) as [neg ->].
  { destruct s as [|c r]; [by eexists|].
    destruct c as [[] [] [] [] [] [] [] []]; by eexists. }
  destruct (unsigned_part s) as [|c r] eqn:U; [done|].
  destruct (Go.ParseUint_loop (String c r) 0) as [e|un] eqn:P; [done|].
  apply ParseUint_loop_Ok in P as [Hun Hdigits]; [|lia].
  rewrite Hdigits. simpl. destruct neg.
  - destruct (2 ^ 63 <? un)%Z eqn:R; [done|].
    apply Z.ltb_ge in R. intros [= <-]. split; [done|lia].
  - destruct (2 ^ 63 <=? un)%Z eqn:R; [done|].
    apply Z.leb_gt in R. intros [= <-]. split; [done|lia].
Qed.

(** ** Request headers of [CreateObject] *)

Lemma lookup_guarded_insert_Some (b : bool) (k x key v : string)
    (m : gmap string string) :
  (if b then <[k := x]> m else m) !! key = Some v → key = k ∨ m !! key = Some v.
Proof.
  destruct b; [|auto]. destruct (decide (k = key)) as [->|Hne]; [auto|].
  rewrite lookup_insert_ne by done. auto.
Qed.

Lemma scalar_headers_names (input : CreateObjectInput.t) (key v : string) :
  scalar_headers input !! key = Some v → key ∈ CreateObject_header_names.
Proof.
  unfold scalar_headers, CreateObject_header_names; cbv zeta. intros H.
  repeat (apply lookup_guarded_insert_Some in H as [->|H];
          [repeat first [apply list_elem_of_here | apply list_elem_of_further]|]).
  by rewrite lookup_empty in H.
Qed.

Lemma CreateObject_headers_other (input : CreateObjectInput.t) (key : string) :
  Go.HasPrefix key h_MetadataPrefix = false →
  CreateObject_headers input !! key = scalar_headers input !! key.
Proof.
  intros Hkey. by rewrite CreateObject_headers_unfold, add_metadata_header_other.
Qed.

Lemma CreateObject_headers_inv (input : CreateObjectInput.t) (key v : string) :
  CreateObject_headers input !! key = Some v →
  key ∈ CreateObject_header_names
  ∨ ∃ k, key = h_MetadataPrefix +:+ k
         ∧ CreateObjectInput.ObjectMetadata input !! k = Some v.
Proof.
  intros H. destruct (Go.HasPrefix key h_MetadataPrefix) eqn:P.
  - right. exists (Go.TrimPrefix key h_MetadataPrefix).
    apply HasPrefix_true in P. split; [done|].
    rewrite P in H. by rewrite CreateObject_headers_prefixed in H.
  - left. rewrite CreateObject_headers_other in H by done.
    by apply scalar_headers_names in H.
Qed.

Lemma CreateObject_headers_absent (input : CreateObjectInput.t) (key : string) :
  key ∉ CreateObject_header_names →
  Go.HasPrefix key h_MetadataPrefix = false →
  CreateObject_headers input !! key = None.
Proof.
  intros Hnames Hprefix.
  destruct (CreateObject_headers input !! key) as [v|] eqn:H; [|done].
  apply CreateObject_headers_inv in H as [H|(k & -> & _)]; [done|].
  by rewrite HasPrefix_append in Hprefix.
Qed.

(** X1. [CreateObject] sends no header but the seven of its scalar fields
    and one for each metadata entry: a header of the request is one of the
    seven names, or it is named by the metadata prefix and a key of the
    metadata and holds that key's value; and the request carries neither
    Content-Length nor Range nor X-Newest, whatever the input. *)
Theorem CreateObject_headers_only (input : CreateObjectInput.t) (key v : string) :
  CreateObject_headers input !! key = Some v →
  (key ∈ CreateObject_header_names
   ∨ ∃ k, key = h_MetadataPrefix +:+ k
          ∧ CreateObjectInput.ObjectMetadata input !! k = Some v)
  ∧ CreateObject_headers input !! h_ContentLength = None
  ∧ CreateObject_headers input !! h_Range = None
  ∧ CreateObject_headers input !! h_Newest = None.
Proof.
  intros H. split; [by apply CreateObject_headers_inv|].
  repeat split; apply CreateObject_headers_absent; try done;
    unfold CreateObject_header_names; rewrite !elem_of_cons, elem_of_nil;
    intros Hin; repeat destruct Hin as [Hin|Hin]; done.
Qed.

Lemma CreateObject_headers_only_witness :
  ("Content-Type" ∈ CreateObject_header_names
   ∨ ∃ k, "Content-Type" = h_MetadataPrefix +:+ k
          ∧ CreateObjectInput.ObjectMetadata Sample.create_f_txt !! k = Some "text/plain")
  ∧ CreateObject_headers Sample.create_f_txt !! h_ContentLength = None
  ∧ CreateObject_headers Sample.create_f_txt !! h_Range = None
  ∧ CreateObject_headers Sample.create_f_txt !! h_Newest = None.
Proof.
  apply (CreateObject_headers_only Sample.create_f_txt "Content-Type" "text/plain").
  reflexivity.
Defined.


(** ** What [success] reads and what it leaves *)

(** X2. [success] takes nothing from the descriptor it is handed but the
    identity and the two numeric fields: two descriptors that agree on ID,
    name, container, content length and deletion time give the same
    result, so no string field and no metadata of an earlier descriptor
    survives. *)
Theorem success_kept_fields (resp : Response) (o1 o2 : ObjectInfo.t) :
  same_kept_fields o1 o2 → success resp o1 = success resp o2.
Proof.
  intros (Hid & Hname & Hcontainer & Hcl & Hda).
  unfold success. by rewrite Hid, Hname, Hcontainer, Hcl, Hda.
Qed.

Lemma success_kept_fields_witness :
  success {| Header := {[ "Content-Length" := ["42"] ]} |}
    (ObjectInfo.mk "c1/f.txt" "f.txt" "bytes" "c1" "inline" "gzip" 7 "text/plain"
       "yesterday" "abc" "yesterday" 9 "m" {[ "color" := "red" ]} "1" "tx1")
  = success {| Header := {[ "Content-Length" := ["42"] ]} |}
      (set_identity "c1/f.txt" "c1" "f.txt"
         (ObjectInfo.mk "" "" "" "" "" "" 7 "" "" "" "" 9 "" ∅ "" "")).
Proof.
  apply (success_kept_fields {| Header := {[ "Content-Length" := ["42"] ]} |}).
  repeat split.
Defined.

(** X3. In a descriptor [success] returns, each of the ten string fields
    is the first value the response holds under the canonical name of its
    header, and empty when the response holds none; the checksum is read
    under Etag, the canonical form of the constant ETag. *)
Theorem success_string_fields (resp : Response) (object o : ObjectInfo.t) :
  success resp object = Ok o →
  let hdr := Header resp in
  ObjectInfo.AcceptRanges o = first_value hdr "Accept-Ranges"
  ∧ ObjectInfo.ContentDisposition o = first_value hdr "Content-Disposition"
  ∧ ObjectInfo.ContentEncoding o = first_value hdr "Content-Encoding"
  ∧ ObjectInfo.ContentType o = first_value hdr "Content-Type"
  ∧ ObjectInfo.Date o = first_value hdr "Date"
  ∧ ObjectInfo.Etag o = first_value hdr "Etag"
  ∧ ObjectInfo.LastModified o = first_value hdr "Last-Modified"
  ∧ ObjectInfo.ObjectManifest o = first_value hdr "X-Object-Manifest"
  ∧ ObjectInfo.Timestamp o = first_value hdr "X-Timestamp"
  ∧ ObjectInfo.TransactionID o = first_value hdr "X-Trans-Id".
Proof.
  unfold success.
  destruct (numeric_header _ h_ContentLength _) as [cl|]; [|done].
  destruct (numeric_header _ h_DeleteAt _) as [da|]; [|done].
  intros [= <-]. simpl. repeat split.
Qed.

Lemma success_string_fields_witness :
  let hdr : gmap string (list string) :=
    {[ "Etag" := ["d41d8"; "other"]; "ETag" := ["ignored"]; "Date" := [] ]} in
  ∃ o, success {| Header := hdr |} ObjectInfo.zero = Ok o
       ∧ ObjectInfo.AcceptRanges o = first_value hdr "Accept-Ranges"
       ∧ ObjectInfo.ContentDisposition o = first_value hdr "Content-Disposition"
       ∧ ObjectInfo.ContentEncoding o = first_value hdr "Content-Encoding"
       ∧ ObjectInfo.ContentType o = first_value hdr "Content-Type"
       ∧ ObjectInfo.Date o = first_value hdr "Date"
       ∧ ObjectInfo.Etag o = first_value hdr "Etag"
       ∧ ObjectInfo.LastModified o = first_value hdr "Last-Modified"
       ∧ ObjectInfo.ObjectManifest o = first_value hdr "X-Object-Manifest"
       ∧ ObjectInfo.Timestamp o = first_value hdr "X-Timestamp"
       ∧ ObjectInfo.TransactionID o = first_value hdr "X-Trans-Id".
Proof.
  intros hdr. eexists. split; [reflexivity|].
  apply (success_string_fields {| Header := hdr |} ObjectInfo.zero).
  reflexivity.
Defined.

(** X4. In a descriptor [success] returns, the metadata holds under a key
    the values of the response header named by the metadata prefix and
    that key, joined by single spaces, and holds nothing under a key for
    which the response has no such header; the match on the prefix is on
    the header name as it is written. *)
Theorem success_metadata_entries (resp : Response) (object o : ObjectInfo.t) :
  success resp object = Ok o →
  ∀ k : string,
    ObjectInfo.ObjectMetadata o !! k
    = (λ value, Go.Join value " ") <$> Header resp !! (h_MetadataPrefix +:+ k).
Proof.
  unfold success.
  destruct (numeric_header _ h_ContentLength _) as [cl|]; [|done].
  destruct (numeric_header _ h_DeleteAt _) as [da|]; [|done].
  intros [= <-] k. simpl. apply success_metadata_lookup.
Qed.

Lemma success_metadata_entries_witness :
  let hdr : gmap string (list string) :=
    {[ "X-Object-Meta-color" := ["red"; "dark"]; "x-object-meta-size" := ["9"];
       "X-Object-Meta-" := ["bare"] ]} in
  ∃ o, success {| Header := hdr |} ObjectInfo.zero = Ok o
       ∧ ∀ k : string,
           ObjectInfo.ObjectMetadata o !! k
           = (λ value, Go.Join value " ") <$> hdr !! (h_MetadataPrefix +:+ k).
Proof.
  intros hdr. eexists. split; [reflexivity|].
  apply (success_metadata_entries {| Header := hdr |} ObjectInfo.zero).
  reflexivity.
Defined.

(** X5. A numeric field [success] has taken from a header that has a
    value is what [strconv.Atoi] makes of that value: the value reads as a
    decimal integer, sign allowed, and the field lies in the range of a
    64-bit [int]; it can be negative. *)
Theorem success_numeric_sound (resp : Response) (object o : ObjectInfo.t) :
  success resp object = Ok o →
  let hdr := Header resp in
  (Go.Header_Get hdr h_ContentLength ≠ "" →
     Go.Atoi (Go.Header_Get hdr h_ContentLength) = Ok (ObjectInfo.ContentLength o)
     ∧ decimal_integer (Go.Header_Get hdr h_ContentLength) = true
     ∧ (Go.minInt ≤ ObjectInfo.ContentLength o ≤ Go.maxInt)%Z)
  ∧ (Go.Header_Get hdr h_DeleteAt ≠ "" →
     Go.Atoi (Go.Header_Get hdr h_DeleteAt) = Ok (ObjectInfo.DeleteAt o)
     ∧ decimal_integer (Go.Header_Get hdr h_DeleteAt) = true
     ∧ (Go.minInt ≤ ObjectInfo.DeleteAt o ≤ Go.maxInt)%Z).
Proof.
  intros Ho hdr. apply success_Ok in Ho as (Hcl & Hda & _). split.
  - intros Hpresent. rewrite numeric_header_present in Hcl by done.
    split; [done|]. by apply Atoi_Ok.
  - intros Hpresent. rewrite numeric_header_present in Hda by done.
    split; [done|]. by apply Atoi_Ok.
Qed.

Lemma success_numeric_sound_witness :
  let hdr : gmap string (list string) :=
    {[ "Content-Length" := ["-5"]; "X-Delete-At" := ["+1700000000"] ]} in
  ∃ o, success {| Header := hdr |} ObjectInfo.zero = Ok o
       ∧ (Go.Atoi "-5" = Ok (ObjectInfo.ContentLength o)
          ∧ decimal_integer "-5" = true
          ∧ (Go.minInt ≤ ObjectInfo.ContentLength o ≤ Go.maxInt)%Z)
       ∧ (Go.Atoi "+1700000000" = Ok (ObjectInfo.DeleteAt o)
          ∧ decimal_integer "+1700000000" = true
          ∧ (Go.minInt ≤ ObjectInfo.DeleteAt o ≤ Go.maxInt)%Z).
Proof.
  intros hdr. eexists. split; [reflexivity|].
  split;
    apply (success_numeric_sound {| Header := hdr |} ObjectInfo.zero _ eq_refl);
    vm_compute; discriminate.
Defined.

(** ** Marshalled headers read back *)

Lemma Header_Get_echo (headers : gmap string string) (key : string) :
  Go.Header_Get (echo headers) key
  = default "" (headers !! Go.CanonicalMIMEHeaderKey key).
Proof.
  unfold Go.Header_Get, echo. rewrite lookup_fmap.
  by destruct (headers !! Go.CanonicalMIMEHeaderKey key).
Qed.

Lemma default_omit_if_empty (field : string) : default "" (omit_if_empty field) = field.
Proof. unfold omit_if_empty. by case_bool_decide. Qed.

Lemma success_metadata_echo (input : CreateObjectInput.t) :
  success_metadata (echo (CreateObject_headers input))
  = CreateObjectInput.ObjectMetadata input.
Proof.
  apply map_eq. intros k.
  rewrite success_metadata_lookup. unfold echo. rewrite lookup_fmap.
  rewrite CreateObject_headers_prefixed.
  by destruct (CreateObjectInput.ObjectMetadata input !! k).
Qed.

Lemma Sprintf_d_nonempty (n : Z) : Go.Sprintf_d n ≠ "".
Proof.
  destruct n as [|p|p]; [done| |by rewrite Sprintf_d_neg].
  rewrite Sprintf_d_pos. pose proof (Unsigned.to_uint_nonnil p).
  by destruct (Pos.to_uint p).
Qed.

(** [success] on a response that carries the request headers of
    [CreateObject] as they were sent, for a descriptor whose numeric fields
    are still zero. *)
Lemma success_echo (input : CreateObjectInput.t) (object : ObjectInfo.t) :
  (Go.minInt ≤ CreateObjectInput.DeleteAt input ≤ Go.maxInt)%Z →
  ObjectInfo.ContentLength object = 0%Z →
  ObjectInfo.DeleteAt object = 0%Z →
  ∃ o, success {| Header := echo (CreateObject_headers input) |} object = Ok o
       ∧ ObjectInfo.ContentDisposition o = CreateObjectInput.ContentDisposition input
       ∧ ObjectInfo.ContentEncoding o = CreateObjectInput.ContentEncoding input
       ∧ ObjectInfo.ContentType o = CreateObjectInput.ContentType input
       ∧ ObjectInfo.DeleteAt o = CreateObjectInput.DeleteAt input
       ∧ ObjectInfo.ContentLength o = 0%Z
       ∧ ObjectInfo.ObjectMetadata o = CreateObjectInput.ObjectMetadata input.
Proof.
  intros Hrange Hcl Hda. unfold success. cbn [Header]. rewrite Hcl, Hda.
  assert (numeric_header (echo (CreateObject_headers input)) h_ContentLength 0
          = Ok 0%Z) as ->.
  { apply numeric_header_absent. rewrite Header_Get_echo.
    change (Go.CanonicalMIMEHeaderKey h_ContentLength) with h_ContentLength.
    rewrite CreateObject_headers_absent; [done| |done].
    unfold CreateObject_header_names. rewrite !elem_of_cons, elem_of_nil.
    intros Hin. repeat destruct Hin as [Hin|Hin]; done. }
  assert (numeric_header (echo (CreateObject_headers input)) h_DeleteAt 0
          = Ok (CreateObjectInput.DeleteAt input)) as ->.
  { unfold numeric_header. rewrite Header_Get_echo.
    change (Go.CanonicalMIMEHeaderKey h_DeleteAt) with h_DeleteAt.
    rewrite CreateObject_headers_other, scalar_headers_DeleteAt by done.
    destruct (decide (CreateObjectInput.DeleteAt input = 0%Z)) as [Hzero|Hnonzero].
    - rewrite (bool_decide_eq_true_2 _ Hzero). simpl. by rewrite Hzero.
    - rewrite (bool_decide_eq_false_2 _ Hnonzero). simpl.
      rewrite bool_decide_eq_true_2 by apply Sprintf_d_nonempty.
      by apply Atoi_Sprintf_d. }
  eexists. split; [reflexivity|]. cbn [ObjectInfo.ContentDisposition
    ObjectInfo.ContentEncoding ObjectInfo.ContentType ObjectInfo.DeleteAt
    ObjectInfo.ContentLength ObjectInfo.ObjectMetadata].
  rewrite !Header_Get_echo.
  change (Go.CanonicalMIMEHeaderKey h_ContentDisposition) with h_ContentDisposition.
  change (Go.CanonicalMIMEHeaderKey h_ContentEncoding) with h_ContentEncoding.
  change (Go.CanonicalMIMEHeaderKey h_ContentType) with h_ContentType.
  rewrite !CreateObject_headers_other by done.
  rewrite scalar_headers_ContentDisposition, scalar_headers_ContentEncoding,
    scalar_headers_ContentType, !default_omit_if_empty.
  repeat split. apply success_metadata_echo.
Qed.

(** X6. What [CreateObject] marshals, [success] reads back: from a
    response that carries the request headers as they were sent, [success]
    returns a descriptor with the content disposition, content encoding,
    content type, deletion time and metadata of the input, and content
    length zero, for every input whose deletion time is a 64-bit [int]. *)
Theorem success_echo_roundtrip (input : CreateObjectInput.t) :
  (Go.minInt ≤ CreateObjectInput.DeleteAt input ≤ Go.maxInt)%Z →
  ∃ o, success {| Header := echo (CreateObject_headers input) |} ObjectInfo.zero = Ok o
       ∧ ObjectInfo.ContentDisposition o = CreateObjectInput.ContentDisposition input
       ∧ ObjectInfo.ContentEncoding o = CreateObjectInput.ContentEncoding input
       ∧ ObjectInfo.ContentType o = CreateObjectInput.ContentType input
       ∧ ObjectInfo.DeleteAt o = CreateObjectInput.DeleteAt input
       ∧ ObjectInfo.ContentLength o = 0%Z
       ∧ ObjectInfo.ObjectMetadata o = CreateObjectInput.ObjectMetadata input.
Proof. intros Hrange. by apply success_echo. Qed.

Lemma success_echo_roundtrip_witness :
  ∃ o, success {| Header := echo (CreateObject_headers Scenario.create_full) |}
         ObjectInfo.zero = Ok o
       ∧ ObjectInfo.ContentDisposition o = "inline"
       ∧ ObjectInfo.ContentEncoding o = "gzip"
       ∧ ObjectInfo.ContentType o = "text/plain"
       ∧ ObjectInfo.DeleteAt o = (-1700000000)%Z
       ∧ ObjectInfo.ContentLength o = 0%Z
       ∧ ObjectInfo.ObjectMetadata o = {[ "color" := "red"; "size" := "9" ]}.
Proof.
  apply (success_echo_roundtrip Scenario.create_full). vm_compute.
  split; discriminate.
Defined.

(** ** The order in which [range] visits a map *)

(** X7. The request headers [CreateObject] builds do not depend on the
    order in which the loop over [input.ObjectMetadata] visits the
    entries: run over the entries in any order, the loop gives the same
    header map. *)
Theorem CreateObject_headers_any_order (input : CreateObjectInput.t)
    (order : list (string * string)) :
  order ≡ₚ map_to_list (CreateObjectInput.ObjectMetadata input) →
  Go.range add_metadata_header order (scalar_headers input)
  = CreateObject_headers input.
Proof.
  intros Horder. rewrite CreateObject_headers_unfold.
  by apply add_metadata_header_any_order.
Qed.

Lemma CreateObject_headers_any_order_witness :
  let input :=
    CreateObjectInput.mk "f.txt" (Some Sample.hello) "c1" "" "" "text/plain"
      "" 0 {[ "color" := "red"; "size" := "9"; "kind" := "log" ]} "" "" in
  Go.range add_metadata_header
    (reverse (map_to_list (CreateObjectInput.ObjectMetadata input)))
    (scalar_headers input)
  = CreateObject_headers input.
Proof.
  intros input. apply (CreateObject_headers_any_order input).
  apply reverse_Permutation.
Defined.

(** X8. The metadata [success] collects does not depend on the order in
    which the loop over [resp.Header] visits the headers. *)
Theorem success_any_order (resp : Response) (object o : ObjectInfo.t)
    (order : list (string * list string)) :
  success resp object = Ok o →
  order ≡ₚ map_to_list (Header resp) →
  Go.range add_metadata_entry order ∅ = ObjectInfo.ObjectMetadata o.
Proof.
  intros Ho Horder. rewrite (success_metadata_any_order _ _ Horder).
  revert Ho. unfold success.
  destruct (numeric_header _ h_ContentLength _) as [cl|]; [|done].
  destruct (numeric_header _ h_DeleteAt _) as [da|]; [|done].
  by intros [= <-].
Qed.

Lemma success_any_order_witness :
  let hdr : gmap string (list string) :=
    {[ "X-Object-Meta-color" := ["red"]; "X-Object-Meta-size" := ["9"];
       "Content-Type" := ["text/plain"] ]} in
  ∃ o, success {| Header := hdr |} ObjectInfo.zero = Ok o
       ∧ Go.range add_metadata_entry (reverse (map_to_list hdr)) ∅
         = ObjectInfo.ObjectMetadata o.
Proof.
  intros hdr. eexists. split; [reflexivity|].
  apply (success_any_order {| Header := hdr |} ObjectInfo.zero).
  - reflexivity.
  - apply reverse_Permutation.
Defined.

(** ** Splitting an identifier *)

Lemma Join_cons (p : string) (parts : list string) (sep : string) :
  parts ≠ [] → Go.Join (p :: parts) sep = p +:+ sep +:+ Go.Join parts sep.
Proof. by destruct parts. Qed.

(** Joining the parts of a split with the separator gives the string back. *)
Lemma Join_Split (s : string) (sep : ascii) :
  Go.Join (Go.Split s sep) (String sep "") = s.
Proof.
  induction s as [|c s IH]; [done|]. simpl.
  pose proof (Split_nonempty s sep) as Hne.
  destruct (Ascii.eqb c sep) eqn:E.
  - apply Ascii.eqb_eq in E as ->. rewrite Join_cons by done. simpl. by rewrite IH.
  - destruct (Go.Split s sep) as [|w ws]; [done|].
    destruct ws as [|w' ws].
    + simpl in *. by rewrite IH.
    + rewrite Join_cons in IH by done. rewrite Join_cons by done.
      by rewrite <- IH.
Qed.

(** No part of a split holds the separator. *)
Lemma Split_parts (s : string) (sep : ascii) :
  Forall (λ part, Go.Count part sep = 0) (Go.Split s sep).
Proof.
  induction s as [|c s IH]; simpl; [by constructor|].
  destruct (Ascii.eqb c sep) eqn:E; [by constructor|].
  destruct (Go.Split s sep) as [|w ws]; [by constructor; [simpl; rewrite E|]|].
  inversion IH as [|? ? Hw Hws]; subst. constructor; [|done].
  simpl. by rewrite E.
Qed.

Lemma Split_two_inv (s : string) (sep : ascii) (part0 part1 : string) :
  Go.Split s sep = [part0; part1] →
  s = part0 +:+ String sep part1
  ∧ Go.Count part0 sep = 0 ∧ Go.Count part1 sep = 0.
Proof.
  intros H. pose proof (Join_Split s sep) as HJ. pose proof (Split_parts s sep) as HP.
  rewrite H in HJ, HP. split; [by rewrite <- HJ|].
  inversion HP as [|? ? H0 HP']; subst. inversion HP' as [|? ? H1 _]; subst. done.
Qed.

(** ** How the wrappers use the [StorageClient] *)

Section WrapperBehaviour.

Context {World : Type}.
Variable getQualifiedName : string → string.
Variable createResourceBody :
  string → gmap string string → option ReadSeeker → World → option string * World.
Variable getResourceHeaders :
  string → ObjectInfo.t → gmap string string → World
  → (string + Response * ObjectInfo.t) * World.
Variable deleteResource : string → World → option string * World.

Abbreviation GetObject'' := (GetObject World getQualifiedName getResourceHeaders).
Abbreviation DeleteObject'' := (DeleteObject World getQualifiedName deleteResource).
Abbreviation CreateObject'' :=
  (CreateObject World getQualifiedName createResourceBody getResourceHeaders).

Lemma getIdentifier_cases (id container name : string) :
  (id = "" ∧ container = "" ∧ name = ""
   ∧ getIdentifier getQualifiedName id container name
     = Err (Errorf "Either ID or Name and Container must be set during DELETE"))
  ∨ (¬ (id = "" ∧ container = "" ∧ name = "")
     ∧ getIdentifier getQualifiedName id container name
       = Ok (getQualifiedName (if bool_decide (id ≠ "") then id
                               else container +:+ "/" +:+ name))).
Proof.
  unfold getIdentifier. case_bool_decide as Hid.
  - right. split; [|done]. by intros (? & _).
  - subst id.
    destruct (decide (container = "")) as [->|Hc].
    + destruct (decide (name = "")) as [->|Hn]; [by left|].
      right. rewrite (bool_decide_eq_false_2 (name = "")) by done.
      split; [|done]. by intros (_ & _ & ?).
    + right. rewrite (bool_decide_eq_false_2 (container = "")) by done.
      split; [|done]. by intros (_ & ? & _).
Qed.

Lemma GetObject_headers_literal (input : GetObjectInput.t) :
  GetObject_headers input
  = {[ "Range" := GetObjectInput.Range input;
       "X-Newest" := if GetObjectInput.Newest input then "true" else "false" ]}.
Proof.
  unfold GetObject_headers, Go.Sprintf_t, h_Newest, h_Range.
  by rewrite insert_insert_ne, insert_empty by done.
Qed.

(** X9. With nothing to identify the object, no ID, no container and no
    name, [GetObject] and [DeleteObject] return the validation error of
    the resolution and make no resource call: the state is the one they
    were started in. *)
Theorem unidentified_object_no_call (range : string) (newest : bool)
    (st : ClientState World) :
  GetObject'' (GetObjectInput.mk "" "" "" range newest) st
  = (Err (Errorf "Either ID or Name and Container must be set during DELETE"), st)
  ∧ DeleteObject'' (DeleteObjectInput.mk "" "" "") st
    = (Err (Errorf "Either ID or Name and Container must be set during DELETE"), st).
Proof. split; reflexivity. Qed.

(** X10. Once the identifier is resolved, [GetObject] makes exactly one
    resource call, whatever comes of it: [getResourceHeaders] under the
    resolved name, with the two headers Range, sent even when empty, and
    X-Newest, which reads true or false. *)
Theorem GetObject_one_call (input : GetObjectInput.t) (st : ClientState World)
    (name : string) :
  getIdentifier getQualifiedName (GetObjectInput.ID input)
    (GetObjectInput.Container input) (GetObjectInput.Name input) = Ok name →
  calls (GetObject'' input st).2
  = calls st
    ++ [Call_getResourceHeaders name
          {[ "Range" := GetObjectInput.Range input;
             "X-Newest" := if GetObjectInput.Newest input then "true" else "false" ]}]
  ∧ world (GetObject'' input st).2
    = (getResourceHeaders name ObjectInfo.zero (GetObject_headers input) (world st)).2.
Proof.
  intros Hres. rewrite (GetObject_resolved _ _ _ _ _ Hres).
  rewrite <- GetObject_headers_literal.
  by destruct (getResourceHeaders _ _ _ _) as [[e|[resp object]] w].
Qed.

(** X11. The errors of [GetObject]: the validation error of the
    resolution, in the state it was started in; or, after its one resource
    call, the error of that call as it came, the validation error for an
    ID that does not hold one slash, or a format error of a numeric
    header. *)
Theorem GetObject_errors (input : GetObjectInput.t) (st st' : ClientState World)
    (e : error) :
  GetObject'' input st = (Err e, st') →
  (st' = st
   ∧ e = Errorf "Either ID or Name and Container must be set during DELETE"
   ∧ GetObjectInput.ID input = "" ∧ GetObjectInput.Container input = ""
   ∧ GetObjectInput.Name input = "")
  ∨ (∃ name w,
       st' = after (Call_getResourceHeaders name (GetObject_headers input)) w st
       ∧ ((∃ msg, e = TransportError msg
                  ∧ (getResourceHeaders name ObjectInfo.zero (GetObject_headers input)
                       (world st)).1 = inl msg)
          ∨ (e = Errorf ("Unknown ID specified: " +:+ GetObjectInput.ID input)
             ∧ GetObjectInput.ID input ≠ ""
             ∧ Go.Count (GetObjectInput.ID input) "/" ≠ 1)
          ∨ FormatError e)).
Proof.
  intros Hrun.
  destruct (getIdentifier_cases (GetObjectInput.ID input)
              (GetObjectInput.Container input) (GetObjectInput.Name input))
    as [(Hid & Hc & Hn & Hres)|[_ Hres]].
  - left. rewrite (GetObject_unresolved _ _ _ _ _ Hres) in Hrun.
    by injection Hrun as <- <-.
  - right. rewrite (GetObject_resolved _ _ _ _ _ Hres) in Hrun.
    destruct (getResourceHeaders _ _ _ _) as [[msg|[resp object]] w] eqn:Hcall.
    + injection Hrun as <- <-. eexists _, w. split; [done|]. left.
      exists msg. split; [done|]. exact (f_equal fst Hcall).
    + injection Hrun as Hrun <-. eexists _, w. split; [done|]. right.
      unfold GetObject_identity in Hrun. case_bool_decide as Hid.
      * destruct (Go.Split (GetObjectInput.ID input) "/")
          as [|p0 [|p1 [|p2 ps]]] eqn:Hsplit;
          try (left; injection Hrun as <-; split; [done|split; [done|]];
               intros Hcount; apply Split_two_parts in Hcount as (? & ? & ?);
               congruence).
        right. apply success_Err in Hrun as (key & err & _ & _ & ->). exact I.
      * right. apply success_Err in Hrun as (key & err & _ & _ & ->). exact I.
Qed.

(** X12. An explicit ID takes precedence in [GetObject]: the container
    and the name of the input play no part, neither in the request nor in
    the descriptor. *)
Theorem GetObject_ID_precedence (id name1 container1 name2 container2 range : string)
    (newest : bool) (st : ClientState World) :
  id ≠ "" →
  GetObject'' (GetObjectInput.mk id name1 container1 range newest) st
  = GetObject'' (GetObjectInput.mk id name2 container2 range newest) st.
Proof.
  intros Hid.
  assert (∀ n c, getIdentifier getQualifiedName id c n = Ok (getQualifiedName id))
    as Hres.
  { intros n c. unfold getIdentifier. by rewrite bool_decide_eq_true_2. }
  rewrite (GetObject_resolved _ _ (GetObjectInput.mk id name1 container1 range newest)
             st _ (Hres _ _)).
  rewrite (GetObject_resolved _ _ (GetObjectInput.mk id name2 container2 range newest)
             st _ (Hres _ _)).
  unfold GetObject_headers, GetObject_identity. simpl.
  by rewrite !bool_decide_eq_true_2 by done.
Qed.

(** X13. In every descriptor [GetObject] returns, the ID is the container,
    a slash and the name.  With an explicit ID the ID is the one of the
    input, and neither the container nor the name holds a slash; without
    one the container and the name are those of the input. *)
Theorem GetObject_descriptor_identity (input : GetObjectInput.t)
    (st st' : ClientState World) (o : ObjectInfo.t) :
  GetObject'' input st = (Ok o, st') →
  ObjectInfo.ID o = ObjectInfo.Container o +:+ "/" +:+ ObjectInfo.Name o
  ∧ (GetObjectInput.ID input ≠ "" →
     ObjectInfo.ID o = GetObjectInput.ID input
     ∧ Go.Count (ObjectInfo.Container o) "/" = 0
     ∧ Go.Count (ObjectInfo.Name o) "/" = 0)
  ∧ (GetObjectInput.ID input = "" →
     ObjectInfo.Container o = GetObjectInput.Container input
     ∧ ObjectInfo.Name o = GetObjectInput.Name input).
Proof.
  intros Hrun.
  destruct (getIdentifier_cases (GetObjectInput.ID input)
              (GetObjectInput.Container input) (GetObjectInput.Name input))
    as [(_ & _ & _ & Hres)|[_ Hres]].
  { by rewrite (GetObject_unresolved _ _ _ _ _ Hres) in Hrun. }
  rewrite (GetObject_resolved _ _ _ _ _ Hres) in Hrun.
  destruct (getResourceHeaders _ _ _ _) as [[msg|[resp object]] w]; [done|].
  injection Hrun as Hrun _.
  unfold GetObject_identity in Hrun. case_bool_decide as Hid.
  - destruct (Go.Split (GetObjectInput.ID input) "/")
      as [|p0 [|p1 [|p2 ps]]] eqn:Hsplit; try done.
    apply success_Ok in Hrun as (_ & _ & HID & HC & HN). simpl in HID, HC, HN.
    apply Split_two_inv in Hsplit as (Hjoin & H0 & H1).
    rewrite HID, HC, HN. repeat split; done.
  - apply success_Ok in Hrun as (_ & _ & HID & HC & HN). simpl in HID, HC, HN.
    rewrite HID, HC, HN. repeat split; done.
Qed.

End WrapperBehaviour.

Section CreateAndDelete.

Context {World : Type}.
Variable getQualifiedName : string → string.
Variable createResourceBody :
  string → gmap string string → option ReadSeeker → World → option string * World.
Variable getResourceHeaders :
  string → ObjectInfo.t → gmap string string → World
  → (string + Response * ObjectInfo.t) * World.
Variable deleteResource : string → World → option string * World.

Abbreviation GetObject3 := (GetObject World getQualifiedName getResourceHeaders).
Abbreviation DeleteObject3 := (DeleteObject World getQualifiedName deleteResource).
Abbreviation CreateObject3 :=
  (CreateObject World getQualifiedName createResourceBody getResourceHeaders).

(** [CreateObject] past its check of the body: the write, and then
    [GetObject] when the write reported no error. *)
Lemma CreateObject_checked (input : CreateObjectInput.t) (st : ClientState World) :
  ¬ (CreateObjectInput.Body input = None ∧ CreateObjectInput.CopyFrom input = "") →
  let name := getQualifiedName (CreateObjectInput.Container input +:+ "/"
                                +:+ CreateObjectInput.Name input) in
  let write := Call_createResourceBody name (CreateObject_headers input)
                 (CreateObjectInput.Body input) in
  CreateObject3 input st
  = let '(r, w) := createResourceBody name (CreateObject_headers input)
                     (CreateObjectInput.Body input) (world st) in
    match r with
    | Some msg => (Err (TransportError msg), after write w st)
    | None => GetObject3 (getInput input) (after write w st)
    end.
Proof.
  intros Hpre name write.
  assert (bool_decide (CreateObjectInput.Body input = None)
          && bool_decide (CreateObjectInput.CopyFrom input = "") = false) as Hguard.
  { apply andb_false_iff.
    destruct (decide (CreateObjectInput.Body input = None)) as [Hbody|Hbody].
    - right. apply bool_decide_eq_false_2. intros Hcopy. by apply Hpre.
    - left. by apply bool_decide_eq_false_2. }
  unfold CreateObject. rewrite Hguard.
  unfold bind, call_createResourceBody, log, Go.Sprintf_s_slash_s.
  subst write name.
  by destruct (createResourceBody _ _ _ _) as [[msg|] w].
Qed.

Lemma CreateObject_unchecked (input : CreateObjectInput.t) (st : ClientState World) :
  CreateObjectInput.Body input = None ∧ CreateObjectInput.CopyFrom input = "" →
  CreateObject3 input st = (Err (Errorf "Body cannot be nil"), st).
Proof. intros [Hbody Hcopy]. unfold CreateObject. by rewrite Hbody, Hcopy. Qed.

Lemma getIdentifier_composed (container name : string) :
  ¬ (container = "" ∧ name = "") →
  getIdentifier getQualifiedName "" container name
  = Ok (getQualifiedName (container +:+ "/" +:+ name)).
Proof.
  intros Hnamed. unfold getIdentifier. simpl.
  destruct (decide (container = "")) as [->|Hc].
  - rewrite (bool_decide_eq_false_2 (name = "")); [done|].
    intros ->. by apply Hnamed.
  - by rewrite (bool_decide_eq_false_2 (container = "")).
Qed.

(** X14. Once the identifier is resolved, [DeleteObject] returns what
    [deleteResource] reports: success exactly when the call reports no
    error, and otherwise the error of the call as it came; the world is
    the one the call leaves, and no response is looked at. *)
Theorem DeleteObject_outcome (input : DeleteObjectInput.t) (st : ClientState World)
    (name : string) :
  getIdentifier getQualifiedName (DeleteObjectInput.ID input)
    (DeleteObjectInput.Container input) (DeleteObjectInput.Name input) = Ok name →
  let r := deleteResource (getQualifiedName name) (world st) in
  ((DeleteObject3 input st).1 = Ok tt ↔ r.1 = None)
  ∧ (∀ msg, r.1 = Some msg → (DeleteObject3 input st).1 = Err (TransportError msg))
  ∧ world (DeleteObject3 input st).2 = r.2.
Proof.
  intros Hres r. subst r. rewrite (DeleteObject_resolved _ _ _ _ _ Hres).
  destruct (deleteResource _ _) as [[msg|] w]; simpl.
  - split; [split; intros; done|]. split; [|done]. by intros ? [= <-].
  - split; [done|]. split; [|done]. by intros.
Qed.

(** X15. When the write fails, [CreateObject] returns the error of the
    write as it came and stops: the write is its one resource call, and no
    read follows. *)
Theorem CreateObject_write_failure (input : CreateObjectInput.t)
    (st : ClientState World) (msg : string) (w' : World) :
  ¬ (CreateObjectInput.Body input = None ∧ CreateObjectInput.CopyFrom input = "") →
  let name := getQualifiedName (CreateObjectInput.Container input +:+ "/"
                                +:+ CreateObjectInput.Name input) in
  createResourceBody name (CreateObject_headers input) (CreateObjectInput.Body input)
    (world st) = (Some msg, w') →
  CreateObject3 input st
  = (Err (TransportError msg),
     {| world := w';
        calls := calls st ++ [Call_createResourceBody name (CreateObject_headers input)
                                (CreateObjectInput.Body input)] |}).
Proof.
  intros Hpre name Hwrite. rewrite (CreateObject_checked _ _ Hpre). fold name.
  by rewrite Hwrite.
Qed.

(** X16. [CreateObject] checks the container and the name only after the
    write: with both empty, and a body or a copy source, it sends the
    write under the qualified name of a bare slash, and when that write
    succeeds it fails with the validation error of the resolution, with
    the write as its one resource call. *)
Theorem CreateObject_unnamed (input : CreateObjectInput.t) (st : ClientState World)
    (w' : World) :
  CreateObjectInput.Container input = "" →
  CreateObjectInput.Name input = "" →
  ¬ (CreateObjectInput.Body input = None ∧ CreateObjectInput.CopyFrom input = "") →
  createResourceBody (getQualifiedName "/") (CreateObject_headers input)
    (CreateObjectInput.Body input) (world st) = (None, w') →
  CreateObject3 input st
  = (Err (Errorf "Either ID or Name and Container must be set during DELETE"),
     {| world := w';
        calls := calls st ++ [Call_createResourceBody (getQualifiedName "/")
                                (CreateObject_headers input)
                                (CreateObjectInput.Body input)] |}).
Proof.
  intros Hc Hn Hpre Hwrite. rewrite (CreateObject_checked _ _ Hpre).
  rewrite Hc, Hn. simpl. rewrite Hwrite.
  apply GetObject_unresolved. unfold getInput. simpl. by rewrite Hc, Hn.
Qed.

(** X17. When [CreateObject] returns a descriptor it has made exactly two
    resource calls, the write and then the read, both under the same
    qualified name of container, slash, name, the read with an empty
    Range and X-Newest false; the input had a body or a copy source, and
    a container or a name. *)
Theorem CreateObject_Ok_calls (input : CreateObjectInput.t)
    (st st' : ClientState World) (o : ObjectInfo.t) :
  CreateObject3 input st = (Ok o, st') →
  let name := getQualifiedName (CreateObjectInput.Container input +:+ "/"
                                +:+ CreateObjectInput.Name input) in
  calls st'
  = calls st
    ++ [Call_createResourceBody name (CreateObject_headers input)
          (CreateObjectInput.Body input);
        Call_getResourceHeaders name {[ "Range" := ""; "X-Newest" := "false" ]}]
  ∧ ¬ (CreateObjectInput.Body input = None ∧ CreateObjectInput.CopyFrom input = "")
  ∧ ¬ (CreateObjectInput.Container input = "" ∧ CreateObjectInput.Name input = "").
Proof.
  intros Hrun name.
  destruct (decide (CreateObjectInput.Body input = None
                    ∧ CreateObjectInput.CopyFrom input = "")) as [Hno|Hpre].
  { by rewrite (CreateObject_unchecked _ _ Hno) in Hrun. }
  rewrite (CreateObject_checked _ _ Hpre) in Hrun. fold name in Hrun.
  destruct (createResourceBody _ _ _ _) as [[msg|] w]; [done|].
  destruct (decide (CreateObjectInput.Container input = ""
                    ∧ CreateObjectInput.Name input = "")) as [[Hc Hn]|Hnamed].
  { rewrite (GetObject_unresolved _ _ _ _
               (Errorf "Either ID or Name and Container must be set during DELETE"))
      in Hrun; [done|].
    unfold getInput. simpl. by rewrite Hc, Hn. }
  pose proof (getIdentifier_composed _ _ Hnamed) as Hres.
  rewrite (GetObject_resolved _ _ (getInput input) _ _ Hres) in Hrun. fold name in Hrun.
  destruct (getResourceHeaders _ _ _ _) as [[msg|[resp object]] w2]; [done|].
  injection Hrun as _ <-. split; [|done]. simpl. rewrite <- app_assoc. done.
Qed.

(** X18. Create end to end against a service that keeps the headers it is
    sent: when the write succeeds and the read answers with the request
    headers of the write, [CreateObject] returns a descriptor with the ID
    container, slash, name, the container and the name of the input, and
    its content disposition, content encoding, content type, deletion
    time and metadata, after the write and the read. *)
Theorem CreateObject_echo_end_to_end (input : CreateObjectInput.t)
    (st : ClientState World) (w1 w2 : World) :
  ¬ (CreateObjectInput.Body input = None ∧ CreateObjectInput.CopyFrom input = "") →
  ¬ (CreateObjectInput.Container input = "" ∧ CreateObjectInput.Name input = "") →
  (Go.minInt ≤ CreateObjectInput.DeleteAt input ≤ Go.maxInt)%Z →
  let name := getQualifiedName (CreateObjectInput.Container input +:+ "/"
                                +:+ CreateObjectInput.Name input) in
  createResourceBody name (CreateObject_headers input) (CreateObjectInput.Body input)
    (world st) = (None, w1) →
  getResourceHeaders name ObjectInfo.zero (GetObject_headers (getInput input)) w1
  = (inr ({| Header := echo (CreateObject_headers input) |}, ObjectInfo.zero), w2) →
  ∃ o,
    CreateObject3 input st
    = (Ok o,
       {| world := w2;
          calls := calls st
                   ++ [Call_createResourceBody name (CreateObject_headers input)
                         (CreateObjectInput.Body input);
                       Call_getResourceHeaders name (GetObject_headers (getInput input))] |})
    ∧ ObjectInfo.ID o
      = CreateObjectInput.Container input +:+ "/" +:+ CreateObjectInput.Name input
    ∧ ObjectInfo.Container o = CreateObjectInput.Container input
    ∧ ObjectInfo.Name o = CreateObjectInput.Name input
    ∧ ObjectInfo.ContentDisposition o = CreateObjectInput.ContentDisposition input
    ∧ ObjectInfo.ContentEncoding o = CreateObjectInput.ContentEncoding input
    ∧ ObjectInfo.ContentType o = CreateObjectInput.ContentType input
    ∧ ObjectInfo.DeleteAt o = CreateObjectInput.DeleteAt input
    ∧ ObjectInfo.ObjectMetadata o = CreateObjectInput.ObjectMetadata input.
Proof.
  intros Hpre Hnamed Hrange name Hwrite Hread.
  rewrite (CreateObject_checked _ _ Hpre). fold name. rewrite Hwrite.
  pose proof (getIdentifier_composed _ _ Hnamed) as Hres.
  rewrite (GetObject_resolved _ _ (getInput input) _ _ Hres). fold name.
  cbn [after world calls]. rewrite Hread.
  rewrite GetObject_identity_composed by done. cbn [getInput GetObjectInput.Container
    GetObjectInput.Name].
  destruct (success_echo input
              (set_identity
                 (CreateObjectInput.Container input +:+ "/" +:+ CreateObjectInput.Name input)
                 (CreateObjectInput.Container input) (CreateObjectInput.Name input)
                 ObjectInfo.zero) Hrange eq_refl eq_refl)
    as (o & Ho & Hcd & Hce & Hct & Hda & _ & Hmeta).
  exists o. rewrite Ho. split.
  { unfold after. cbn [world calls]. by rewrite <- app_assoc. }
  apply success_Ok in Ho as (_ & _ & HID & HC & HN).
  by repeat split.
Qed.

End CreateAndDelete.

(** ** The wrappers on the sample service, continued *)

Lemma GetObject_one_call_witness :
  calls (GetObject Sample.Store Sample.qualify_once Sample.head
           (GetObjectInput.mk "c1/f.txt" "" "" "" true) Sample.stored).2
  = calls Sample.stored
    ++ [Call_getResourceHeaders "/Storage-acme/c1/f.txt"
          {[ "Range" := ""; "X-Newest" := "true" ]}]
  ∧ world (GetObject Sample.Store Sample.qualify_once Sample.head
             (GetObjectInput.mk "c1/f.txt" "" "" "" true) Sample.stored).2
    = (Sample.head "/Storage-acme/c1/f.txt" ObjectInfo.zero
         (GetObject_headers (GetObjectInput.mk "c1/f.txt" "" "" "" true))
         (world Sample.stored)).2.
Proof.
  apply (GetObject_one_call Sample.qualify_once Sample.head
           (GetObjectInput.mk "c1/f.txt" "" "" "" true) Sample.stored
           "/Storage-acme/c1/f.txt").
  reflexivity.
Defined.

Lemma GetObject_errors_witness :
  let input := GetObjectInput.mk "c1/f.txt" "" "" "" false in
  let st' := after (Call_getResourceHeaders "/Storage-acme/c1/f.txt"
                      (GetObject_headers input)) ∅ Sample.start in
  let e := TransportError "404 Not Found" in
  (st' = Sample.start
   ∧ e = Errorf "Either ID or Name and Container must be set during DELETE"
   ∧ GetObjectInput.ID input = "" ∧ GetObjectInput.Container input = ""
   ∧ GetObjectInput.Name input = "")
  ∨ (∃ name w,
       st' = after (Call_getResourceHeaders name (GetObject_headers input)) w Sample.start
       ∧ ((∃ msg, e = TransportError msg
                  ∧ (Sample.head name ObjectInfo.zero (GetObject_headers input)
                       (world Sample.start)).1 = inl msg)
          ∨ (e = Errorf ("Unknown ID specified: " +:+ GetObjectInput.ID input)
             ∧ GetObjectInput.ID input ≠ ""
             ∧ Go.Count (GetObjectInput.ID input) "/" ≠ 1)
          ∨ FormatError e)).
Proof.
  intros input st' e.
  apply (GetObject_errors Sample.qualify_once Sample.head input Sample.start st' e).
  reflexivity.
Defined.

Lemma GetObject_ID_precedence_witness :
  GetObject Sample.Store Sample.qualify_once Sample.head
    (GetObjectInput.mk "c1/f.txt" "g.txt" "c2" "" false) Sample.stored
  = GetObject Sample.Store Sample.qualify_once Sample.head
      (GetObjectInput.mk "c1/f.txt" "" "" "" false) Sample.stored.
Proof.
  apply (GetObject_ID_precedence Sample.qualify_once Sample.head
           "c1/f.txt" "g.txt" "c2" "" "" "" false Sample.stored).
  discriminate.
Defined.

Lemma GetObject_descriptor_identity_witness :
  ∃ o st', GetObject Sample.Store Sample.qualify_once Sample.head
             (GetObjectInput.mk "c1/f.txt" "g.txt" "c2" "" false) Sample.stored
           = (Ok o, st')
    ∧ ObjectInfo.ID o = ObjectInfo.Container o +:+ "/" +:+ ObjectInfo.Name o
    ∧ ("c1/f.txt" ≠ "" →
       ObjectInfo.ID o = "c1/f.txt"
       ∧ Go.Count (ObjectInfo.Container o) "/" = 0
       ∧ Go.Count (ObjectInfo.Name o) "/" = 0)
    ∧ ("c1/f.txt" = "" →
       ObjectInfo.Container o = "c2" ∧ ObjectInfo.Name o = "g.txt").
Proof.
  pose (o := set_identity "c1/f.txt" "c1" "f.txt"
              (ObjectInfo.mk "" "" "" "" "" "" 0 "text/plain" "" "" "" 0 "" ∅ "" "")).
  pose (st' := after (Call_getResourceHeaders "/Storage-acme/c1/f.txt"
                        (GetObject_headers
                           (GetObjectInput.mk "c1/f.txt" "g.txt" "c2" "" false)))
                 (world Sample.stored) Sample.stored).
  exists o, st'. split; [reflexivity|].
  apply (GetObject_descriptor_identity Sample.qualify_once Sample.head
           (GetObjectInput.mk "c1/f.txt" "g.txt" "c2" "" false) Sample.stored st' o).
  reflexivity.
Defined.

Lemma DeleteObject_outcome_witness :
  let input := DeleteObjectInput.mk "" "f.txt" "c1" in
  let r := Sample.remove "/Storage-acme/c1/f.txt" (world Sample.stored) in
  ((DeleteObject Sample.Store Sample.qualify_once Sample.remove input Sample.stored).1
     = Ok tt ↔ r.1 = None)
  ∧ (∀ msg, r.1 = Some msg →
       (DeleteObject Sample.Store Sample.qualify_once Sample.remove input Sample.stored).1
       = Err (TransportError msg))
  ∧ world (DeleteObject Sample.Store Sample.qualify_once Sample.remove input
             Sample.stored).2 = r.2.
Proof.
  intros input r.
  apply (DeleteObject_outcome Sample.qualify_once Sample.remove input Sample.stored
           "/Storage-acme/c1/f.txt").
  reflexivity.
Defined.

Lemma CreateObject_write_failure_witness :
  CreateObject Sample.Store Sample.qualify_once Scenario.put_refused Sample.head
    Sample.create_f_txt Sample.start
  = (Err (TransportError "503 Service Unavailable"),
     {| world := ∅;
        calls := calls Sample.start
                 ++ [Call_createResourceBody "/Storage-acme/c1/f.txt"
                       (CreateObject_headers Sample.create_f_txt)
                       (Some Sample.hello)] |}).
Proof.
  apply (CreateObject_write_failure Sample.qualify_once Scenario.put_refused Sample.head
           Sample.create_f_txt Sample.start "503 Service Unavailable" ∅).
  - intros [H _]. discriminate H.
  - reflexivity.
Defined.

Lemma CreateObject_unnamed_witness :
  let w' : Sample.Store :=
    {[ "/Storage-acme//" := echo (CreateObject_headers Scenario.create_unnamed) ]} in
  CreateObject Sample.Store Sample.qualify_once Sample.put Sample.head
    Scenario.create_unnamed Sample.start
  = (Err (Errorf "Either ID or Name and Container must be set during DELETE"),
     {| world := w';
        calls := calls Sample.start
                 ++ [Call_createResourceBody (Sample.qualify_once "/")
                       (CreateObject_headers Scenario.create_unnamed) None] |}).
Proof.
  intros w'.
  apply (CreateObject_unnamed Sample.qualify_once Sample.put Sample.head
           Scenario.create_unnamed Sample.start w').
  - reflexivity.
  - reflexivity.
  - intros [_ H]. discriminate H.
  - reflexivity.
Defined.

Lemma CreateObject_Ok_calls_witness :
  ∃ o st', CreateObject Sample.Store Sample.qualify_once Sample.put Sample.head
             Sample.create_f_txt Sample.start = (Ok o, st')
    ∧ calls st'
      = calls Sample.start
        ++ [Call_createResourceBody "/Storage-acme/c1/f.txt"
              (CreateObject_headers Sample.create_f_txt) (Some Sample.hello);
            Call_getResourceHeaders "/Storage-acme/c1/f.txt"
              {[ "Range" := ""; "X-Newest" := "false" ]}]
    ∧ ¬ (CreateObjectInput.Body Sample.create_f_txt = None
         ∧ CreateObjectInput.CopyFrom Sample.create_f_txt = "")
    ∧ ¬ (CreateObjectInput.Container Sample.create_f_txt = ""
         ∧ CreateObjectInput.Name Sample.create_f_txt = "").
Proof.
  pose (o := set_identity "c1/f.txt" "c1" "f.txt"
              (ObjectInfo.mk "" "" "" "" "" "" 0 "text/plain" "" "" "" 0 "" ∅ "" "")).
  pose (st' := Build_ClientState Sample.Store
                 {[ "/Storage-acme/c1/f.txt"
                    := echo (CreateObject_headers Sample.create_f_txt) ]}
                 [Call_createResourceBody "/Storage-acme/c1/f.txt"
                    (CreateObject_headers Sample.create_f_txt) (Some Sample.hello);
                  Call_getResourceHeaders "/Storage-acme/c1/f.txt"
                    {[ "Range" := ""; "X-Newest" := "false" ]}]).
  exists o, st'. split; [reflexivity|].
  apply (CreateObject_Ok_calls Sample.qualify_once Sample.put Sample.head
           Sample.create_f_txt Sample.start st' o).
  reflexivity.
Defined.

Lemma CreateObject_echo_end_to_end_witness :
  let input := Scenario.create_full in
  let w : Sample.Store :=
    {[ "/Storage-acme/c1/f.txt" := echo (CreateObject_headers input) ]} in
  ∃ o,
    CreateObject Sample.Store Sample.qualify_once Sample.put Sample.head input Sample.start
    = (Ok o,
       {| world := w;
          calls := calls Sample.start
                   ++ [Call_createResourceBody "/Storage-acme/c1/f.txt"
                         (CreateObject_headers input) (Some Sample.hello);
                       Call_getResourceHeaders "/Storage-acme/c1/f.txt"
                         (GetObject_headers (getInput input))] |})
    ∧ ObjectInfo.ID o = "c1/f.txt"
    ∧ ObjectInfo.Container o = "c1"
    ∧ ObjectInfo.Name o = "f.txt"
    ∧ ObjectInfo.ContentDisposition o = "inline"
    ∧ ObjectInfo.ContentEncoding o = "gzip"
    ∧ ObjectInfo.ContentType o = "text/plain"
    ∧ ObjectInfo.DeleteAt o = (-1700000000)%Z
    ∧ ObjectInfo.ObjectMetadata o = {[ "color" := "red"; "size" := "9" ]}.
Proof.
  intros input w.
  apply (CreateObject_echo_end_to_end Sample.qualify_once Sample.put Sample.head
           input Sample.start w w).
  - intros [H _]. discriminate H.
  - intros [H _]. discriminate H.
  - vm_compute. split; discriminate.
  - reflexivity.
  - reflexivity.
Defined.

(** ** Metadata round trip *)

(** The canonical form of a header named by the metadata prefix and a key
    is the prefix and the canonical form of the key. *)
Lemma Canonical_prefixed (k : string) :
  Go.CanonicalMIMEHeaderKey (h_MetadataPrefix +:+ k)
  = h_MetadataPrefix +:+ Go.CanonicalMIMEHeaderKey k.
Proof.
  unfold Go.CanonicalMIMEHeaderKey, h_MetadataPrefix.
  change (forallb Go.validHeaderFieldByte (list_ascii_of_string ("X-Object-Meta-" +:+ k)))
    with (forallb Go.validHeaderFieldByte (list_ascii_of_string k)).
  destruct (forallb Go.validHeaderFieldByte (list_ascii_of_string k)); reflexivity.
Qed.

(** What the received header set holds, when no two of the headers share
    a canonical form: each value alone under the canonical form of its
    name, and nothing under any other name. *)
Lemma received_lookup (headers : gmap string string) :
  distinct_canonical_forms headers →
  (∀ k v, headers !! k = Some v →
          received headers !! Go.CanonicalMIMEHeaderKey k = Some [v])
  ∧ (∀ key, (∀ k, is_Some (headers !! k) → Go.CanonicalMIMEHeaderKey k ≠ key) →
            received headers !! key = None).
Proof.
  unfold received.
  apply (map_fold_weak_ind
           (λ r m, distinct_canonical_forms m →
              (∀ k v, m !! k = Some v → r !! Go.CanonicalMIMEHeaderKey k = Some [v])
              ∧ (∀ key, (∀ k, is_Some (m !! k) → Go.CanonicalMIMEHeaderKey k ≠ key) →
                        r !! key = None))).
  - intros _. split; [by intros k v; rewrite lookup_empty|].
    intros key _. apply lookup_empty.
  - intros i x m r Hi IH Hdistinct.
    assert (distinct_canonical_forms m) as Hm.
    { intros k1 k2 [v1 H1] [v2 H2]. apply Hdistinct.
      - exists v1. rewrite lookup_insert_ne; [done|]. intros ->. congruence.
      - exists v2. rewrite lookup_insert_ne; [done|]. intros ->. congruence. }
    destruct (IH Hm) as [IHa IHb].
    assert (∀ k, is_Some (m !! k) →
                 Go.CanonicalMIMEHeaderKey k ≠ Go.CanonicalMIMEHeaderKey i) as Hfresh.
    { intros k [v Hk] E. assert (k = i) as ->; [|congruence].
      apply Hdistinct; [|by rewrite lookup_insert_eq|done].
      exists v. rewrite lookup_insert_ne; [done|]. intros ->. congruence. }
    unfold Header_Add. rewrite (IHb _ Hfresh). simpl. split.
    + intros k v Hk. destruct (decide (i = k)) as [->|Hne].
      * rewrite lookup_insert_eq in Hk. injection Hk as ->.
        by rewrite lookup_insert_eq.
      * rewrite lookup_insert_ne in Hk by done.
        rewrite lookup_insert_ne; [by apply IHa|].
        intros E. by apply (Hfresh k); [eexists|].
    + intros key Hkey. rewrite lookup_insert_ne.
      * apply IHb. intros k [v Hk]. apply Hkey. exists v.
        rewrite lookup_insert_ne; [done|]. intros ->. congruence.
      * apply Hkey. by rewrite lookup_insert_eq.
Qed.

(** The canonical form of a scalar header name does not start with the
    metadata prefix, and two scalar header names with the same canonical
    form are the same name. *)
Lemma scalar_name_canonical (name : string) :
  name ∈ CreateObject_header_names →
  Go.HasPrefix (Go.CanonicalMIMEHeaderKey name) h_MetadataPrefix = false.
Proof.
  unfold CreateObject_header_names. rewrite !elem_of_cons, elem_of_nil.
  intros H. repeat destruct H as [->|H]; [reflexivity..|done].
Qed.

Lemma scalar_names_distinct (name1 name2 : string) :
  name1 ∈ CreateObject_header_names → name2 ∈ CreateObject_header_names →
  Go.CanonicalMIMEHeaderKey name1 = Go.CanonicalMIMEHeaderKey name2 → name1 = name2.
Proof.
  unfold CreateObject_header_names. rewrite !elem_of_cons, !elem_of_nil.
  intros H1 H2.
  repeat destruct H1 as [->|H1]; try done;
    repeat destruct H2 as [->|H2]; try done;
    intros E; try reflexivity; vm_compute in E; discriminate E.
Qed.

Lemma CreateObject_headers_distinct (input : CreateObjectInput.t) :
  distinct_canonical_forms (CreateObjectInput.ObjectMetadata input) →
  distinct_canonical_forms (CreateObject_headers input).
Proof.
  intros Hd k1 k2 [v1 H1] [v2 H2] E.
  apply CreateObject_headers_inv in H1 as [N1|(a & -> & Ha)];
    apply CreateObject_headers_inv in H2 as [N2|(b & -> & Hb)].
  - by apply scalar_names_distinct.
  - apply scalar_name_canonical in N1. rewrite E, Canonical_prefixed in N1.
    by rewrite HasPrefix_append in N1.
  - apply scalar_name_canonical in N2. rewrite <- E, Canonical_prefixed in N2.
    by rewrite HasPrefix_append in N2.
  - rewrite !Canonical_prefixed in E. apply append_cancel_l in E.
    f_equal. apply Hd; [by eexists|by eexists|done].
Qed.

(** The metadata [success] collects from the received form of the headers
    [CreateObject] marshals, when no two metadata keys share a canonical
    form: each value under the canonical form of its key, and nothing
    under any other key. *)
Lemma success_metadata_received (input : CreateObjectInput.t) :
  distinct_canonical_forms (CreateObjectInput.ObjectMetadata input) →
  (∀ k v, CreateObjectInput.ObjectMetadata input !! k = Some v →
          success_metadata (received (CreateObject_headers input))
            !! Go.CanonicalMIMEHeaderKey k = Some v)
  ∧ (∀ key, (∀ k, is_Some (CreateObjectInput.ObjectMetadata input !! k) →
                  Go.CanonicalMIMEHeaderKey k ≠ key) →
            success_metadata (received (CreateObject_headers input)) !! key = None).
Proof.
  intros Hd.
  destruct (received_lookup _ (CreateObject_headers_distinct _ Hd)) as [Ha Hb].
  split.
  - intros k v Hk. rewrite success_metadata_lookup, <- Canonical_prefixed.
    rewrite (Ha _ v); [done|]. by rewrite CreateObject_headers_prefixed.
  - intros key Hkey. rewrite success_metadata_lookup, Hb; [done|].
    intros k [v Hk] E.
    apply CreateObject_headers_inv in Hk as [N|(a & -> & Ha')].
    + apply scalar_name_canonical in N. rewrite E in N.
      by rewrite HasPrefix_append in N.
    + rewrite Canonical_prefixed in E. apply append_cancel_l in E.
      by apply (Hkey a); [eexists|].
Qed.

Lemma success_metadata_received_canonical (input : CreateObjectInput.t) :
  (∀ k, is_Some (CreateObjectInput.ObjectMetadata input !! k) →
        Go.CanonicalMIMEHeaderKey k = k) →
  success_metadata (received (CreateObject_headers input))
  = CreateObjectInput.ObjectMetadata input.
Proof.
  intros Hcanon.
  assert (distinct_canonical_forms (CreateObjectInput.ObjectMetadata input)) as Hd.
  { intros k1 k2 H1 H2. by rewrite (Hcanon _ H1), (Hcanon _ H2). }
  destruct (success_metadata_received _ Hd) as [Ha Hb].
  apply map_eq. intros key.
  destruct (CreateObjectInput.ObjectMetadata input !! key) as [v|] eqn:Hkey.
  - rewrite <- (Hcanon key) by by eexists. by apply Ha.
  - apply Hb. intros k Hk E. rewrite (Hcanon _ Hk) in E. subst k.
    rewrite Hkey in Hk. by destruct Hk.
Qed.

Lemma success_metadata_names_kept (input : CreateObjectInput.t)
    (hdr : gmap string (list string)) :
  (∀ k, hdr !! (h_MetadataPrefix +:+ k)
        = (λ v, [v]) <$> CreateObject_headers input !! (h_MetadataPrefix +:+ k)) →
  success_metadata hdr = CreateObjectInput.ObjectMetadata input.
Proof.
  intros Hkept. apply map_eq. intros k.
  rewrite success_metadata_lookup, Hkept, CreateObject_headers_prefixed.
  by destruct (CreateObjectInput.ObjectMetadata input !! k).
Qed.

(** C7 (as amended). The headers marshalled for the metadata mapping
    color -> red are exactly the header X-Object-Meta-color with the value
    red.  Unmarshalling gives back the mapping of the input whenever the
    response holds the marshalled metadata headers under the names as
    they were sent.  From the header set [net/http] holds, where every
    name is in its canonical form, each value comes back under the
    canonical form of its key, and nothing comes back under another key,
    provided no two keys share a canonical form; so the mapping comes
    back as it was when every key is in canonical form already. *)
Theorem metadata_roundtrip :
  CreateObject_headers Sample.create_color_red
    = {[ "X-Object-Meta-color" := "red" ]}
  ∧ success_metadata {[ "X-Object-Meta-color" := ["red"] ]} = {[ "color" := "red" ]}
  ∧ (∀ (input : CreateObjectInput.t) (hdr : gmap string (list string)),
       (∀ k, hdr !! (h_MetadataPrefix +:+ k)
             = (λ v, [v]) <$> CreateObject_headers input !! (h_MetadataPrefix +:+ k)) →
       success_metadata hdr = CreateObjectInput.ObjectMetadata input)
  ∧ (∀ input : CreateObjectInput.t,
       distinct_canonical_forms (CreateObjectInput.ObjectMetadata input) →
       (∀ k v, CreateObjectInput.ObjectMetadata input !! k = Some v →
               success_metadata (received (CreateObject_headers input))
                 !! Go.CanonicalMIMEHeaderKey k = Some v)
       ∧ (∀ key, (∀ k, is_Some (CreateObjectInput.ObjectMetadata input !! k) →
                       Go.CanonicalMIMEHeaderKey k ≠ key) →
                 success_metadata (received (CreateObject_headers input)) !! key
                 = None))
  ∧ (∀ input : CreateObjectInput.t,
       (∀ k, is_Some (CreateObjectInput.ObjectMetadata input !! k) →
             Go.CanonicalMIMEHeaderKey k = k) →
       success_metadata (received (CreateObject_headers input))
       = CreateObjectInput.ObjectMetadata input).
Proof.
  split; [|split; [|split; [|split]]].
  - rewrite CreateObject_headers_unfold. simpl.
    rewrite map_fold_singleton. done.
  - apply map_eq. intros k. rewrite success_metadata_lookup.
    destruct (decide (k = "color")) as [->|Hne].
    + by rewrite !lookup_singleton_eq.
    + rewrite !lookup_singleton_ne; [done|congruence|].
      intros E. apply Hne. symmetry.
      by apply (append_cancel_l h_MetadataPrefix).
  - apply success_metadata_names_kept.
  - apply success_metadata_received.
  - apply success_metadata_received_canonical.
Qed.

Lemma metadata_roundtrip_witness :
  success_metadata (echo (CreateObject_headers Sample.create_color_red))
  = {[ "color" := "red" ]}
  ∧ success_metadata (received (CreateObject_headers Sample.create_color_red))
      !! "Color" = Some "red"
  ∧ success_metadata (received (CreateObject_headers create_Color_red))
    = {[ "Color" := "red" ]}.
Proof.
  destruct metadata_roundtrip as (_ & _ & Hkept & Hreceived & Hcanonical).
  split; [|split].
  - apply (Hkept Sample.create_color_red). intros k. unfold echo.
    by rewrite lookup_fmap.
  - assert (distinct_canonical_forms
              (CreateObjectInput.ObjectMetadata Sample.create_color_red)) as Hd.
    { intros k1 k2 [v1 H1] [v2 H2] _.
      cbn [Sample.create_color_red CreateObjectInput.ObjectMetadata] in H1, H2.
      apply lookup_singleton_Some in H1 as [<- _].
      by apply lookup_singleton_Some in H2 as [<- _]. }
    destruct (Hreceived Sample.create_color_red Hd) as [Hvalue _].
    exact (Hvalue "color" "red" eq_refl).
  - apply (Hcanonical create_Color_red). intros k [v Hk].
    cbn [create_Color_red CreateObjectInput.ObjectMetadata] in Hk.
    by apply lookup_singleton_Some in Hk as [<- _].
Defined.

(** From the header set [net/http] holds for the marshalled mapping
    color -> red, where the header is named X-Object-Meta-Color, [success]
    collects the mapping Color -> red, which is not the mapping that was
    marshalled. *)
Lemma metadata_roundtrip_counterexample :
  received (CreateObject_headers Sample.create_color_red)
    = {[ "X-Object-Meta-Color" := ["red"] ]}
  ∧ success_metadata (received (CreateObject_headers Sample.create_color_red))
    = {[ "Color" := "red" ]}
  ∧ success_metadata (received (CreateObject_headers Sample.create_color_red))
    ≠ CreateObjectInput.ObjectMetadata Sample.create_color_red.
Proof.
  split; [vm_compute; reflexivity|]. split; [vm_compute; reflexivity|].
  intros H. apply (f_equal (λ m : gmap string string, m !! "color")) in H.
  vm_compute in H. discriminate H.
Qed.
